(** * BlueZ adapter mode/session/bonding logic and audio device state machine

    A shallow embedding of the parts of [hcid/adapter.c] and
    [profiles/audio/device.c] that decide the mode-commit protocol, the
    session registry, discovery and bonding guards, and the aggregate audio
    state.  C integers are [Z], C strings are [string] (the bytes before the
    terminator), structs are records, and every call into the kernel, the HCI
    socket, GLib, D-Bus or the agent is an explicit argument (its outcome) and
    an explicit entry of the returned effect trace. *)

From Stdlib Require Import ZArith List String Ascii Bool Lia.
Import ListNotations.
Open Scope string_scope.
Open Scope list_scope.
Open Scope Z_scope.

(** ** C strings *)

Module CString.

Definition code (c : ascii) : Z := Z.of_N (N_of_ascii c).

(** [tolower] of the C locale: only 'A'..'Z' are shifted. *)
Definition tolower (c : ascii) : ascii :=
  if (65 <=? code c) && (code c <=? 90)
  then ascii_of_N (N_of_ascii c + 32)
  else c.

(** libc [strcasecmp]: the difference of the first pair of bytes that
    differ after folding, 0 when both strings end together.  The end of a
    [string] is the terminator, and a zero byte inside it ends the
    comparison as it does in C. *)
Fixpoint strcasecmp (s1 s2 : string) : Z :=
  match s1, s2 with
  | EmptyString, EmptyString => 0
  | EmptyString, String c2 _ => 0 - code (tolower c2)
  | String c1 _, EmptyString => code (tolower c1) - 0
  | String c1 r1, String c2 r2 =>
      let d := code (tolower c1) - code (tolower c2) in
      if d =? 0
      then (if code c1 =? 0 then 0 else strcasecmp r1 r2)
      else d
  end.

(** libc [strcmp], same conventions. *)
Fixpoint strcmp (s1 s2 : string) : Z :=
  match s1, s2 with
  | EmptyString, EmptyString => 0
  | EmptyString, String c2 _ => 0 - code c2
  | String c1 _, EmptyString => code c1 - 0
  | String c1 r1, String c2 r2 =>
      let d := code c1 - code c2 in
      if d =? 0
      then (if code c1 =? 0 then 0 else strcmp r1 r2)
      else d
  end.

(** The C string held by a buffer: the bytes before the first zero. *)
Fixpoint cstr (s : string) : string :=
  match s with
  | EmptyString => EmptyString
  | String c r => if code c =? 0 then EmptyString else String c (cstr r)
  end.

Fixpoint lower (s : string) : string :=
  match s with
  | EmptyString => EmptyString
  | String c r => String (tolower c) (lower r)
  end.

End CString.

(** ** hcid/adapter.c: data model *)

Module Adapter.
Import CString.

(** A [bdaddr_t], six bytes read as one number. *)
Definition bdaddr := Z.

(** Modelled from the spec: the mode constants of [adapter.h], which is not
    among the sources.  The values are those of the BlueZ header and agree
    with the ordering Off < Connectable < Discoverable/Limited the spec
    states; [MODE_UNKNOWN] is the largest [uint8_t]. *)
Definition MODE_OFF : Z := 0.
Definition MODE_CONNECTABLE : Z := 1.
Definition MODE_DISCOVERABLE : Z := 2.
Definition MODE_LIMITED : Z := 3.
Definition MODE_UNKNOWN : Z := 255.

(** Modelled from the spec: the scan-enable bits of [bluetooth/hci.h]
    (Off -> none, Connectable -> page scan, Discoverable -> page + inquiry
    scan) and the generic authentication-failure status. *)
Definition SCAN_DISABLED : Z := 0.
Definition SCAN_INQUIRY : Z := 1.
Definition SCAN_PAGE : Z := 2.
Definition HCI_AUTHENTICATION_FAILURE : Z := 5.

(** Modelled from the spec: the discovery-type bits of [adapter.h]
    (standard, periodic, resolve-name). *)
Definition STD_INQUIRY : Z := 1.
Definition PERIODIC_INQUIRY : Z := 2.
Definition RESOLVE_NAME : Z := 16.

(** Modelled from the spec: name status of a found device ([dbus-hci.h]). *)
Inductive name_status_t :=
| NAME_ANY | NAME_NOT_REQUIRED | NAME_REQUIRED | NAME_REQUESTED | NAME_SENT.

(** errno values of Linux and the [GIOCondition] bits of GLib. *)
Definition ENODEV : Z := 19.
Definition ENETDOWN : Z := 100.
Definition EALREADY : Z := 114.
Definition G_IO_OUT : Z := 4.
Definition G_IO_ERR : Z := 8.
Definition G_IO_HUP : Z := 16.
Definition G_IO_NVAL : Z := 32.

(** [hcid.offmode], the configured policy for mode "off". *)
Inductive offmode_t := HCID_OFFMODE_DEVDOWN | HCID_OFFMODE_NOSCAN.

Definition offmode_eqb (x y : offmode_t) : bool :=
  match x, y with
  | HCID_OFFMODE_DEVDOWN, HCID_OFFMODE_DEVDOWN => true
  | HCID_OFFMODE_NOSCAN, HCID_OFFMODE_NOSCAN => true
  | _, _ => false
  end.

(** A D-Bus method call: who sent it, on which object, which member, and
    its arguments. *)
Inductive dbus_arg :=
| ArgString (s : string)
| ArgUInt32 (n : Z)
| ArgBoolean (b : bool).

Record DBusMessage := mkMsg {
  msg_sender : string;
  msg_path : string;
  msg_member : string;
  msg_args : list dbus_arg
}.

(** The error number behind a [.Failed] reply: an errno, or [bt_error] of
    an HCI status (the table of [bt_error] is not needed). *)
Inductive errcode :=
| Errno (e : Z)
| BtError (status : Z).

(** What is put on the bus in answer to a call.  [AuthenticationReturn]
    stands for [new_authentication_return (msg, status)] of the D-Bus
    helpers, which picks the error name from the status it carries. *)
Inductive DBusReply :=
| MethodReturn
| InvalidArguments
| NotReady
| NoSuchAdapter
| Failed (e : errcode)
| FailedText (text : string)
| InProgress (text : string)
| NotAuthorized
| BondingNotInProgress
| ConnectionAttemptFailed (err : Z)
| AuthenticationCanceled
| AuthenticationReturn (status : Z)
| AgentError (name message : string).

Definition is_error (r : DBusReply) : bool :=
  match r with
  | MethodReturn => false
  | _ => true
  end.

(** Calls that leave the process, with the outcome each one had. *)
Inductive effect :=
| HciOpenDev (dd : Z)
| HciCloseDev
| IoctlDevUp (ret errno : Z)
| IoctlDevDown (ret errno : Z)
| SetLimitedDiscoverable (limited : bool) (err : Z)
| WriteScanEnable (scan ret errno status : Z)
| Inquiry (ret errno status : Z)
| ReadRemoteNameCancel (ba : bdaddr) (ret : Z)
| AuthRequested (handle ret errno status : Z)
| PinCodeNegReply (ba : bdaddr)
| EmitSignal (path name arg : string)
| SourceRemove (id : Z)
| TimeoutAdd (interval id : Z)
| WriteDeviceMode (mode : string)
| Send (to : DBusMessage) (r : DBusReply)
| AgentConfirmModeChange (mode : string) (ret : Z)
| AddDisconnectWatch (sender : string) (id : Z)
| RemoveWatch (id : Z)
| IoChannelClose
| IoAddWatch (cond id : Z)
| RemoveDevice (address : string).

(** [struct mode_req]; [req_msg] is the held request, its sender names
    the session. *)
Record mode_req := mkReq {
  req_msg : DBusMessage;
  req_mode : Z;
  req_id : Z
}.

Record remote_dev_info := mkFound {
  fd_bdaddr : bdaddr;
  fd_name_status : name_status_t
}.

Record pending_pin_info := mkPin {
  pin_bdaddr : bdaddr;
  pin_replied : bool
}.

Record device := mkDevice {
  dev_address : string;
  dev_temporary : bool
}.

(** [struct bonding_request_info]; [b_io_closed] is the state of the
    [GIOChannel] it owns. *)
Record bonding_request_info := mkBonding {
  b_msg : DBusMessage;
  b_bdaddr : bdaddr;
  b_io_closed : bool;
  b_io_id : Z;
  b_listener_id : Z;
  b_hci_status : Z;
  b_cancel : bool;
  b_auth_active : bool
}.

(** Modelled from the spec: the agent ([agent.c] is not among the
    sources) holds the request it was asked to confirm until it answers. *)
Record agent_t := mkAgent {
  agent_request : option mode_req
}.

(** [struct adapter], the fields the modelled functions read or write. *)
Record adapter := mkAdapter {
  address : string;
  up : bool;
  mode : Z;
  global_mode : Z;
  scan_enable : Z;
  discov_timeout : Z;
  timeout_id : Z;
  sessions : list mode_req;
  agent : option agent_t;
  discov_active : bool;
  pdiscov_active : bool;
  pinq_idle : bool;
  discov_type : Z;
  discov_requestor : option string;
  discov_listener : Z;
  found_devices : list remote_dev_info;
  bonding : option bonding_request_info;
  pin_reqs : list pending_pin_info;
  devices : list device
}.

(** Field assignments, [a->f = v]. *)
Definition with_mode (v : Z) (a : adapter) : adapter :=
  mkAdapter (address a) (up a) v (global_mode a) (scan_enable a)
    (discov_timeout a) (timeout_id a) (sessions a) (agent a)
    (discov_active a) (pdiscov_active a) (pinq_idle a) (discov_type a)
    (discov_requestor a) (discov_listener a) (found_devices a) (bonding a)
    (pin_reqs a) (devices a).

Definition with_global_mode (v : Z) (a : adapter) : adapter :=
  mkAdapter (address a) (up a) (mode a) v (scan_enable a) (discov_timeout a)
    (timeout_id a) (sessions a) (agent a) (discov_active a)
    (pdiscov_active a) (pinq_idle a) (discov_type a) (discov_requestor a)
    (discov_listener a) (found_devices a) (bonding a) (pin_reqs a)
    (devices a).

Definition with_timeout_id (v : Z) (a : adapter) : adapter :=
  mkAdapter (address a) (up a) (mode a) (global_mode a) (scan_enable a)
    (discov_timeout a) v (sessions a) (agent a) (discov_active a)
    (pdiscov_active a) (pinq_idle a) (discov_type a) (discov_requestor a)
    (discov_listener a) (found_devices a) (bonding a) (pin_reqs a)
    (devices a).

Definition with_sessions (v : list mode_req) (a : adapter) : adapter :=
  mkAdapter (address a) (up a) (mode a) (global_mode a) (scan_enable a)
    (discov_timeout a) (timeout_id a) v (agent a) (discov_active a)
    (pdiscov_active a) (pinq_idle a) (discov_type a) (discov_requestor a)
    (discov_listener a) (found_devices a) (bonding a) (pin_reqs a)
    (devices a).

Definition with_agent (v : option agent_t) (a : adapter) : adapter :=
  mkAdapter (address a) (up a) (mode a) (global_mode a) (scan_enable a)
    (discov_timeout a) (timeout_id a) (sessions a) v (discov_active a)
    (pdiscov_active a) (pinq_idle a) (discov_type a) (discov_requestor a)
    (discov_listener a) (found_devices a) (bonding a) (pin_reqs a)
    (devices a).

Definition with_discov_type (v : Z) (a : adapter) : adapter :=
  mkAdapter (address a) (up a) (mode a) (global_mode a) (scan_enable a)
    (discov_timeout a) (timeout_id a) (sessions a) (agent a)
    (discov_active a) (pdiscov_active a) (pinq_idle a) v
    (discov_requestor a) (discov_listener a) (found_devices a) (bonding a)
    (pin_reqs a) (devices a).

Definition with_discov_requestor (v : option string) (a : adapter) : adapter :=
  mkAdapter (address a) (up a) (mode a) (global_mode a) (scan_enable a)
    (discov_timeout a) (timeout_id a) (sessions a) (agent a)
    (discov_active a) (pdiscov_active a) (pinq_idle a) (discov_type a) v
    (discov_listener a) (found_devices a) (bonding a) (pin_reqs a)
    (devices a).

Definition with_discov_listener (v : Z) (a : adapter) : adapter :=
  mkAdapter (address a) (up a) (mode a) (global_mode a) (scan_enable a)
    (discov_timeout a) (timeout_id a) (sessions a) (agent a)
    (discov_active a) (pdiscov_active a) (pinq_idle a) (discov_type a)
    (discov_requestor a) v (found_devices a) (bonding a) (pin_reqs a)
    (devices a).

Definition with_found_devices (v : list remote_dev_info) (a : adapter)
  : adapter :=
  mkAdapter (address a) (up a) (mode a) (global_mode a) (scan_enable a)
    (discov_timeout a) (timeout_id a) (sessions a) (agent a)
    (discov_active a) (pdiscov_active a) (pinq_idle a) (discov_type a)
    (discov_requestor a) (discov_listener a) v (bonding a) (pin_reqs a)
    (devices a).

Definition with_bonding (v : option bonding_request_info) (a : adapter)
  : adapter :=
  mkAdapter (address a) (up a) (mode a) (global_mode a) (scan_enable a)
    (discov_timeout a) (timeout_id a) (sessions a) (agent a)
    (discov_active a) (pdiscov_active a) (pinq_idle a) (discov_type a)
    (discov_requestor a) (discov_listener a) (found_devices a) v
    (pin_reqs a) (devices a).

Definition with_pin_reqs (v : list pending_pin_info) (a : adapter) : adapter :=
  mkAdapter (address a) (up a) (mode a) (global_mode a) (scan_enable a)
    (discov_timeout a) (timeout_id a) (sessions a) (agent a)
    (discov_active a) (pdiscov_active a) (pinq_idle a) (discov_type a)
    (discov_requestor a) (discov_listener a) (found_devices a) (bonding a) v
    (devices a).

Definition with_devices (v : list device) (a : adapter) : adapter :=
  mkAdapter (address a) (up a) (mode a) (global_mode a) (scan_enable a)
    (discov_timeout a) (timeout_id a) (sessions a) (agent a)
    (discov_active a) (pdiscov_active a) (pinq_idle a) (discov_type a)
    (discov_requestor a) (discov_listener a) (found_devices a) (bonding a)
    (pin_reqs a) v.

(** What a call leaves behind: the reply handed back for the caller (none
    when the answer is deferred), the adapter, and the calls made. *)
Record outcome := mkOut {
  reply : option DBusReply;
  state : adapter;
  trace : list effect
}.

(** The outcome of every external call one entry point can make. *)
Record hci_env := mkEnv {
  offmode : offmode_t;
  dd : Z;
  up_ret : Z;
  up_errno : Z;
  down_ret : Z;
  down_errno : Z;
  limited_err : Z;
  req_ret : Z;
  req_errno : Z;
  req_status : Z;
  new_timer : Z;
  new_watch : Z;
  agent_ret : Z;
  read_on_mode : bdaddr -> option string;
  rn_dd : Z;
  rn_ret : Z;
  rn_errno : Z;
  so_ret : Z;
  so_errno : Z;
  so_error : Z;
  ci_ret : Z;
  ci_errno : Z;
  ci_handle : Z
}.

Definition mode_req_eq_dec (x y : mode_req) : {x = y} + {x <> y}.
Proof.
  repeat decide equality; apply Z.eq_dec.
Defined.

Definition pending_pin_eq_dec (x y : pending_pin_info) : {x = y} + {x <> y}.
Proof.
  repeat decide equality.
Defined.

Definition device_eq_dec (x y : device) : {x = y} + {x <> y}.
Proof.
  repeat decide equality.
Defined.

(** [g_slist_remove]: the first node holding the element goes. *)
Fixpoint g_slist_remove {A} (eq_dec : forall x y : A, {x = y} + {x <> y})
  (l : list A) (x : A) : list A :=
  match l with
  | [] => []
  | y :: r => if eq_dec y x then r else y :: g_slist_remove eq_dec r x
  end.

(** [g_slist_find_custom]: the first element the comparison returns 0 on. *)
Definition g_slist_find_custom {A B} (l : list A) (key : B)
  (cmp : A -> B -> Z) : option A :=
  find (fun x => cmp x key =? 0) l.

Definition is_nil {A} (l : list A) : bool :=
  match l with
  | [] => true
  | _ :: _ => false
  end.

Definition is_some {A} (o : option A) : bool :=
  match o with
  | Some _ => true
  | None => false
  end.

(** ** hcid/adapter.c: operations *)

Section Operations.

(** [str2ba], [ba2str] and [check_address] of the Bluetooth library. *)
Variable str2ba : string -> bdaddr.
Variable ba2str : bdaddr -> string.
Variable check_address : string -> Z.

Definition mode2str (mode : Z) : string :=
  if mode =? MODE_OFF then "off"
  else if mode =? MODE_CONNECTABLE then "connectable"
  else if mode =? MODE_DISCOVERABLE then "discoverable"
  else if mode =? MODE_LIMITED then "limited"
  else "unknown".

(** [on_mode], with the call back into [str2mode] as [rec]. *)
Definition on_mode (rec : string -> option Z)
  (rd : bdaddr -> option string) (addr : string) : option Z :=
  match rd (str2ba addr) with
  | None => Some MODE_CONNECTABLE
  | Some mode => rec mode
  end.

(** [str2mode].  The C function and [on_mode] call each other; [fuel]
    bounds the depth and [None] is the recursion that does not end. *)
Fixpoint str2mode (fuel : nat) (rd : bdaddr -> option string)
  (addr mode : string) : option Z :=
  if strcasecmp "off" mode =? 0 then Some MODE_OFF
  else if strcasecmp "connectable" mode =? 0 then Some MODE_CONNECTABLE
  else if strcasecmp "discoverable" mode =? 0 then Some MODE_DISCOVERABLE
  else if strcasecmp "limited" mode =? 0 then Some MODE_LIMITED
  else if strcasecmp "on" mode =? 0 then
    match fuel with
    | O => None
    | S f => on_mode (str2mode f rd addr) rd addr
    end
  else Some MODE_UNKNOWN.

(** The [switch] that opens [set_mode]. *)
Definition scan_for (new_mode : Z) : option Z :=
  if new_mode =? MODE_OFF then Some SCAN_DISABLED
  else if new_mode =? MODE_CONNECTABLE then Some SCAN_PAGE
  else if (new_mode =? MODE_DISCOVERABLE) || (new_mode =? MODE_LIMITED)
  then Some (Z.lor SCAN_PAGE SCAN_INQUIRY)
  else None.

(** [set_mode] from the label [done] on. *)
Definition set_mode_done (new_mode : Z) (a : adapter) (t : list effect)
  : outcome :=
  mkOut (Some MethodReturn) (with_mode new_mode a)
        (t ++ [WriteDeviceMode (mode2str new_mode); HciCloseDev]).

Definition set_mode_fail (e : errcode) (a : adapter) (t : list effect)
  : outcome :=
  mkOut (Some (Failed e)) a (t ++ [HciCloseDev]).

(** [set_mode] from [set_limited_discoverable] to [done]. *)
Definition set_mode_scan (e : hci_env) (msg : DBusMessage) (new_mode scan : Z)
  (a : adapter) (t : list effect) : outcome :=
  let limited := new_mode =? MODE_LIMITED in
  let t1 := t ++ [SetLimitedDiscoverable limited (limited_err e)] in
  if limited_err e <? 0 then set_mode_fail (Errno (- limited_err e)) a t1
  else if negb (scan_enable a =? scan) then
    let t2 := t1 ++ [WriteScanEnable scan (req_ret e) (req_errno e)
                                     (req_status e)] in
    if req_ret e <? 0 then set_mode_fail (Errno (req_errno e)) a t2
    else if negb (req_status e =? 0)
    then set_mode_fail (BtError (req_status e)) a t2
    else set_mode_done new_mode a t2
  else if negb (Z.land scan SCAN_INQUIRY =? 0) && negb (new_mode =? mode a)
  then
    let t2 := t1 ++ [EmitSignal (msg_path msg) "ModeChanged"
                                (mode2str new_mode)] in
    let t3 := if negb (timeout_id a =? 0)
              then t2 ++ [SourceRemove (timeout_id a)] else t2 in
    if is_nil (sessions a) && (discov_timeout a =? 0)
    then set_mode_done new_mode (with_timeout_id (new_timer e) a)
           (t3 ++ [TimeoutAdd ((discov_timeout a * 1000) mod 2 ^ 32)
                              (new_timer e)])
    else set_mode_done new_mode a t3
  else set_mode_done new_mode a t1.

(** [set_mode] from the power-down test on. *)
Definition set_mode_down (e : hci_env) (msg : DBusMessage) (new_mode scan : Z)
  (a : adapter) (t : list effect) : outcome :=
  if up a && (scan =? SCAN_DISABLED)
     && offmode_eqb (offmode e) HCID_OFFMODE_DEVDOWN
  then
    let t1 := t ++ [IoctlDevDown (down_ret e) (down_errno e)] in
    if down_ret e <? 0 then set_mode_fail (Errno (down_errno e)) a t1
    else set_mode_done new_mode a t1
  else set_mode_scan e msg new_mode scan a t.

Definition set_mode (e : hci_env) (msg : DBusMessage) (new_mode : Z)
  (a : adapter) : outcome :=
  match scan_for new_mode with
  | None => mkOut (Some InvalidArguments) a []
  | Some scan =>
      let t0 := [HciOpenDev (dd e)] in
      if dd e <? 0 then mkOut (Some NoSuchAdapter) a t0
      else if negb (up a)
              && (offmode_eqb (offmode e) HCID_OFFMODE_NOSCAN
                  || (offmode_eqb (offmode e) HCID_OFFMODE_DEVDOWN
                      && negb (scan =? SCAN_DISABLED)))
      then
        let t1 := t0 ++ [IoctlDevUp (up_ret e) (up_errno e)] in
        if up_ret e =? 0 then set_mode_done new_mode a t1
        else if negb (up_errno e =? EALREADY)
        then set_mode_fail (Errno (up_errno e)) a t1
        else set_mode_down e msg new_mode scan a t1
      else set_mode_down e msg new_mode scan a t0
  end.

(** [find_session]: [strcmp] of the two senders. *)
Definition find_session (req : mode_req) (msg : DBusMessage) : Z :=
  strcmp (msg_sender (req_msg req)) (msg_sender msg).

(** The label [cleanup] of [confirm_mode_cb]. *)
Definition confirm_cleanup (req : mode_req) : list effect :=
  if negb (req_id req =? 0) then [RemoveWatch (req_id req)] else [].

(** [confirm_mode_cb]: the agent answered; [err] is the error it set. *)
Definition confirm_mode_cb (e : hci_env) (err : option (string * string))
  (req : mode_req) (a : adapter) : outcome :=
  match err with
  | Some (name, message) =>
      mkOut None a
            (Send (req_msg req) (AgentError name message)
             :: confirm_cleanup req)
  | None =>
      let o := set_mode e (req_msg req) (req_mode req) a in
      let sent := match reply o with
                  | Some r => [Send (req_msg req) r]
                  | None => []
                  end in
      match g_slist_find_custom (sessions (state o)) (req_msg req)
                                find_session with
      | Some _ => mkOut None (state o) (trace o ++ sent)
      | None => mkOut None (state o) (trace o ++ sent ++ confirm_cleanup req)
      end
  end.

(** [confirm_mode]. *)
Definition confirm_mode (fuel : nat) (e : hci_env) (msg : DBusMessage)
  (mode_name : string) (a : adapter) : option outcome :=
  match agent a with
  | None => Some (mkOut (Some MethodReturn) a [])
  | Some _ =>
      match str2mode fuel (read_on_mode e) (address a) mode_name with
      | None => None
      | Some m =>
          let req := mkReq msg m 0 in
          let t := [AgentConfirmModeChange mode_name (agent_ret e)] in
          if agent_ret e <? 0 then Some (mkOut (Some InvalidArguments) a t)
          else Some (mkOut None (with_agent (Some (mkAgent (Some req))) a) t)
      end
  end.

(** [adapter_set_mode], the handler of SetMode. *)
Definition adapter_set_mode (fuel : nat) (e : hci_env) (msg : DBusMessage)
  (a : adapter) : option outcome :=
  match msg_args msg with
  | ArgString mode_name :: _ =>
      match str2mode fuel (read_on_mode e) (address a) mode_name with
      | None => None
      | Some g =>
          let a1 := with_global_mode g a in
          if global_mode a1 =? mode a1
          then Some (mkOut (Some MethodReturn) a1 [])
          else if negb (is_nil (sessions a1)) && (global_mode a1 <? mode a1)
          then confirm_mode fuel e msg mode_name a1
          else
            match str2mode fuel (read_on_mode e) (address a1) mode_name with
            | None => None
            | Some m => Some (set_mode e msg m a1)
            end
      end
  | _ => Some (mkOut (Some InvalidArguments) a [])
  end.

(** [session_exit].  The fall back to [global_mode] is commented out in
    the source under a FIXME; only the debug line is left. *)
Definition session_exit (req : mode_req) (a : adapter) : adapter :=
  with_sessions (g_slist_remove mode_req_eq_dec (sessions a) req) a.

(** [request_mode], the handler of RequestMode. *)
Definition request_mode (fuel : nat) (e : hci_env) (msg : DBusMessage)
  (a : adapter) : option outcome :=
  match msg_args msg with
  | ArgString mode_name :: _ =>
      match str2mode fuel (read_on_mode e) (address a) mode_name with
      | None => None
      | Some new_mode =>
          if negb (new_mode =? MODE_CONNECTABLE)
             && negb (new_mode =? MODE_DISCOVERABLE)
          then Some (mkOut (Some InvalidArguments) a [])
          else
            match agent a with
            | None =>
                Some (mkOut (Some (FailedText "No agent registered")) a [])
            | Some _ =>
                match g_slist_find_custom (sessions a) msg find_session with
                | Some _ =>
                    Some (mkOut (Some (FailedText "Mode already requested"))
                                a [])
                | None =>
                    let req := mkReq msg new_mode (new_watch e) in
                    let t := [AddDisconnectWatch (msg_sender msg)
                                                 (new_watch e)] in
                    let a1 := if is_nil (sessions a)
                              then with_global_mode (mode a) a else a in
                    let a2 := with_sessions (sessions a1 ++ [req]) a1 in
                    if mode a2 >=? new_mode
                    then Some (mkOut (Some MethodReturn) a2 t)
                    else
                      let t1 := t ++ [AgentConfirmModeChange mode_name
                                                             (agent_ret e)] in
                      if agent_ret e <? 0
                      then (* the request is freed but stays in the list *)
                        Some (mkOut (Some InvalidArguments) a2
                                       (t1 ++ [RemoveWatch (req_id req)]))
                      else Some (mkOut None
                                  (with_agent (Some (mkAgent (Some req))) a2)
                                  t1)
                end
            end
      end
  | _ => Some (mkOut (Some InvalidArguments) a [])
  end.

(** [release_mode], the handler of ReleaseMode. *)
Definition release_mode (msg : DBusMessage) (a : adapter) : outcome :=
  match g_slist_find_custom (sessions a) msg find_session with
  | None => mkOut (Some (FailedText "No Mode to release")) a []
  | Some req => mkOut (Some MethodReturn) (session_exit req a) []
  end.

(** Modelled from the spec: [found_device_cmp] is not among the sources;
    against the wildcard address the search of [pending_remote_name_cancel]
    keeps the name status only ("any pending remote-name request"). *)
Definition found_device_cmp (d : remote_dev_info) (status : name_status_t)
  : Z :=
  match fd_name_status d, status with
  | NAME_REQUESTED, NAME_REQUESTED => 0
  | _, _ => -1
  end.

(** [pending_remote_name_cancel]: the value returned, the adapter, the
    calls made. *)
Definition pending_remote_name_cancel (e : hci_env) (a : adapter)
  : Z * adapter * list effect :=
  match g_slist_find_custom (found_devices a) NAME_REQUESTED
                            found_device_cmp with
  | None => (0, a, [])
  | Some dev =>
      if rn_dd e <? 0 then (- ENODEV, a, [HciOpenDev (rn_dd e)])
      else
        let err := if rn_ret e <? 0 then - rn_errno e else 0 in
        (err, with_found_devices [] a,
         [HciOpenDev (rn_dd e);
          ReadRemoteNameCancel (fd_bdaddr dev) (rn_ret e);
          HciCloseDev])
  end.

(** [adapter_discover_devices], the handler of DiscoverDevices and of
    DiscoverDevicesWithoutNameResolving. *)
Definition adapter_discover_devices (e : hci_env) (msg : DBusMessage)
  (a : adapter) : outcome :=
  if negb (up a) then mkOut (Some NotReady) a []
  else if negb (is_nil (msg_args msg)) then mkOut (Some InvalidArguments) a []
  else if discov_active a
  then mkOut (Some (InProgress "Discover in progress")) a []
  else
    let '(_, a1, t1) := pending_remote_name_cancel e a in
    if is_some (bonding a1)
    then mkOut (Some (InProgress "Bonding in progress")) a1 t1
    else
      let t2 := t1 ++ [HciOpenDev (dd e)] in
      if dd e <? 0 then mkOut (Some NoSuchAdapter) a1 t2
      else
        let t3 := t2 ++ [Inquiry (req_ret e) (req_errno e) (req_status e)] in
        if req_ret e <? 0
        then mkOut (Some (Failed (Errno (req_errno e)))) a1
                   (t3 ++ [HciCloseDev])
        else if negb (req_status e =? 0)
        then mkOut (Some (Failed (BtError (req_status e)))) a1
                   (t3 ++ [HciCloseDev])
        else
          let bits :=
            if strcmp "DiscoverDevicesWithoutNameResolving" (msg_member msg)
               =? 0
            then STD_INQUIRY else Z.lor STD_INQUIRY RESOLVE_NAME in
          let a2 := with_discov_type (Z.lor (discov_type a1) bits) a1 in
          let a3 := with_discov_requestor (Some (msg_sender msg)) a2 in
          let a4 := with_discov_listener (new_watch e) a3 in
          mkOut (Some MethodReturn) a4
                (t3 ++ [HciCloseDev;
                        AddDisconnectWatch (msg_sender msg) (new_watch e)]).

(** [reply_authentication_failure]: the status recorded for the bonding,
    or the generic one when none was. *)
Definition reply_authentication_failure (b : bonding_request_info)
  : list effect :=
  let status := if negb (b_hci_status b =? 0)
                then b_hci_status b else HCI_AUTHENTICATION_FAILURE in
  [Send (b_msg b) (AuthenticationReturn status)].

(** Modelled from the spec: [device_address_cmp] is not among the sources;
    a device record is found by its address string. *)
Definition device_address_cmp (d : device) (dest : string) : Z :=
  strcasecmp (dev_address d) dest.

Definition adapter_find_device (a : adapter) (dest : string)
  : option device :=
  g_slist_find_custom (devices a) dest device_address_cmp.

(** [remove_pending_device]; the storage and link-key work of
    [adapter_remove_device] is the one entry [RemoveDevice]. *)
Definition remove_pending_device (b : bonding_request_info) (a : adapter)
  : adapter * list effect :=
  match adapter_find_device a (ba2str (b_bdaddr b)) with
  | None => (a, [])
  | Some d =>
      if dev_temporary d
      then (with_devices (g_slist_remove device_eq_dec (devices a) d) a,
            [RemoveDevice (dev_address d)])
      else (a, [])
  end.

(** The labels [cleanup] and [failed] of [create_bonding_conn_complete]. *)
Definition bonding_cleanup (b : bonding_request_info) (a : adapter)
  (t : list effect) : outcome :=
  mkOut None (with_bonding None a) (t ++ [RemoveWatch (b_listener_id b)]).

Definition bonding_failed (b : bonding_request_info) (a : adapter)
  (t : list effect) : outcome :=
  let '(a1, t1) := remove_pending_device b a in
  bonding_cleanup b a1 (t ++ IoChannelClose :: t1).

(** [create_bonding_conn_complete], the watch on the raw link of the
    bonding in flight; [cond] is the [GIOCondition] it is called with. *)
Definition create_bonding_conn_complete (e : hci_env) (cond : Z)
  (a : adapter) : outcome :=
  match bonding a with
  | None => mkOut None a [IoChannelClose]
  | Some b =>
      if negb (Z.land cond G_IO_NVAL =? 0)
      then bonding_cleanup b a [Send (b_msg b) AuthenticationCanceled]
      else if negb (Z.land cond (Z.lor G_IO_HUP G_IO_ERR) =? 0)
      then
        if negb (b_auth_active b)
        then bonding_failed b a
               [Send (b_msg b) (ConnectionAttemptFailed ENETDOWN)]
        else bonding_failed b a (reply_authentication_failure b)
      else if so_ret e <? 0
      then bonding_failed b a [Send (b_msg b) (Failed (Errno (so_errno e)))]
      else if negb (so_error e =? 0)
      then
        if b_auth_active b
        then bonding_failed b a (reply_authentication_failure b)
        else bonding_failed b a
               [Send (b_msg b) (ConnectionAttemptFailed (so_error e))]
      else if ci_ret e <? 0
      then bonding_failed b a [Send (b_msg b) (Failed (Errno (ci_errno e)))]
      else if dd e <? 0
      then bonding_failed b a [HciOpenDev (dd e); Send (b_msg b) NoSuchAdapter]
      else
        let t := [HciOpenDev (dd e);
                  AuthRequested (ci_handle e) (req_ret e) (req_errno e)
                                (req_status e)] in
        if req_ret e <? 0
        then bonding_failed b a
               (t ++ [Send (b_msg b) (Failed (Errno (req_errno e)));
                      HciCloseDev])
        else if negb (req_status e =? 0)
        then bonding_failed b a
               (t ++ [Send (b_msg b) (Failed (BtError (req_status e)));
                      HciCloseDev])
        else
          let b1 := mkBonding (b_msg b) (b_bdaddr b) (b_io_closed b)
                              (new_watch e) (b_listener_id b)
                              (b_hci_status b) (b_cancel b) true in
          mkOut None (with_bonding (Some b1) a)
                (t ++ [HciCloseDev;
                       IoAddWatch (Z.lor G_IO_NVAL (Z.lor G_IO_HUP G_IO_ERR))
                                  (new_watch e)])
  end.

(** Modelled from the spec: [pin_req_cmp] is not among the sources; a
    pending PIN request is found by the device address. *)
Definition pin_req_cmp (p : pending_pin_info) (ba : bdaddr) : Z :=
  if pin_bdaddr p =? ba then 0 else 1.

Definition bonding_set_cancel (b : bonding_request_info)
  : bonding_request_info :=
  mkBonding (b_msg b) (b_bdaddr b) (b_io_closed b) (b_io_id b)
            (b_listener_id b) (b_hci_status b) true (b_auth_active b).

Definition bonding_close_io (b : bonding_request_info)
  : bonding_request_info :=
  mkBonding (b_msg b) (b_bdaddr b) true (b_io_id b)
            (b_listener_id b) (b_hci_status b) (b_cancel b) (b_auth_active b).

(** [adapter_cancel_bonding], the handler of CancelBondingProcess. *)
Definition adapter_cancel_bonding (e : hci_env) (msg : DBusMessage)
  (a : adapter) : outcome :=
  if negb (up a) then mkOut (Some NotReady) a []
  else
    match msg_args msg with
    | ArgString addr :: _ =>
        if check_address addr <? 0 then mkOut (Some InvalidArguments) a []
        else
          let ba := str2ba addr in
          match bonding a with
          | None => mkOut (Some BondingNotInProgress) a []
          | Some b =>
              if negb (b_bdaddr b =? ba)
              then mkOut (Some BondingNotInProgress) a []
              else if negb (strcmp (msg_sender (b_msg b)) (msg_sender msg)
                            =? 0)
              then mkOut (Some NotAuthorized) a []
              else
                let b1 := bonding_set_cancel b in
                let a1 := with_bonding (Some b1) a in
                let closed := with_bonding (Some (bonding_close_io b1)) in
                match g_slist_find_custom (pin_reqs a1) ba pin_req_cmp with
                | Some pin_req =>
                    if pin_replied pin_req
                    then mkOut (Some NotAuthorized) (closed a1)
                               [IoChannelClose]
                    else if dd e <? 0
                    then mkOut None a1 [HciOpenDev (dd e)]
                    else
                      let a2 := with_pin_reqs
                                  (g_slist_remove pending_pin_eq_dec
                                                  (pin_reqs a1) pin_req) a1 in
                      mkOut (Some MethodReturn) (closed a2)
                            [HciOpenDev (dd e); PinCodeNegReply ba;
                             HciCloseDev; IoChannelClose]
                | None =>
                    mkOut (Some MethodReturn) (closed a1) [IoChannelClose]
                end
          end
    | _ => mkOut (Some InvalidArguments) a []
    end.

End Operations.

(** ** The mode and session protocol as a machine *)

(** What can happen to one adapter: the three calls, the exit of a client
    that holds a session, and the answer of the agent. *)
Inductive event :=
| SetMode (e : hci_env) (msg : DBusMessage)
| RequestMode (e : hci_env) (msg : DBusMessage)
| ReleaseMode (msg : DBusMessage)
| SessionExit (sender : string)
| AgentReply (e : hci_env) (err : option (string * string)).

Definition sender_is (sender : string) (req : mode_req) : bool :=
  strcmp (msg_sender (req_msg req)) sender =? 0.

(** One event; [None] when a call does not return.  The agent hands the
    request it held back to [confirm_mode_cb] and forgets it. *)
Definition step (str2ba : string -> bdaddr) (fuel : nat) (a : adapter)
  (ev : event) : option adapter :=
  match ev with
  | SetMode e msg => option_map state (adapter_set_mode str2ba fuel e msg a)
  | RequestMode e msg => option_map state (request_mode str2ba fuel e msg a)
  | ReleaseMode msg => Some (state (release_mode msg a))
  | SessionExit sender =>
      match find (sender_is sender) (sessions a) with
      | Some req => Some (session_exit req a)
      | None => Some a
      end
  | AgentReply e err =>
      match agent a with
      | Some (mkAgent (Some req)) =>
          Some (state (confirm_mode_cb e err req
                         (with_agent (Some (mkAgent None)) a)))
      | _ => Some a
      end
  end.

Fixpoint run (str2ba : string -> bdaddr) (fuel : nat) (a : adapter)
  (evs : list event) : option adapter :=
  match evs with
  | [] => Some a
  | ev :: rest =>
      match step str2ba fuel a ev with
      | Some a1 => run str2ba fuel a1 rest
      | None => None
      end
  end.

End Adapter.

(** ** profiles/audio/device.c *)

Module Audio.

Definition DBusMessage := Adapter.DBusMessage.

Inductive audio_state_t :=
| AUDIO_STATE_DISCONNECTED
| AUDIO_STATE_CONNECTING
| AUDIO_STATE_CONNECTED.

(** The states [device_sink_cb] and [device_avctp_cb] switch over, and
    those of an AVDTP session. *)
Inductive sink_state_t :=
| SINK_STATE_DISCONNECTED
| SINK_STATE_CONNECTING
| SINK_STATE_CONNECTED
| SINK_STATE_PLAYING.

Inductive avctp_state_t :=
| AVCTP_STATE_DISCONNECTED
| AVCTP_STATE_CONNECTING
| AVCTP_STATE_CONNECTED.

Inductive avdtp_session_state_t :=
| AVDTP_SESSION_STATE_DISCONNECTED
| AVDTP_SESSION_STATE_CONNECTING
| AVDTP_SESSION_STATE_CONNECTED.

Definition CONTROL_CONNECT_TIMEOUT : Z := 2.

Definition audio_state_eqb (x y : audio_state_t) : bool :=
  match x, y with
  | AUDIO_STATE_DISCONNECTED, AUDIO_STATE_DISCONNECTED => true
  | AUDIO_STATE_CONNECTING, AUDIO_STATE_CONNECTING => true
  | AUDIO_STATE_CONNECTED, AUDIO_STATE_CONNECTED => true
  | _, _ => false
  end.

Definition sink_state_eqb (x y : sink_state_t) : bool :=
  match x, y with
  | SINK_STATE_DISCONNECTED, SINK_STATE_DISCONNECTED => true
  | SINK_STATE_CONNECTING, SINK_STATE_CONNECTING => true
  | SINK_STATE_CONNECTED, SINK_STATE_CONNECTED => true
  | SINK_STATE_PLAYING, SINK_STATE_PLAYING => true
  | _, _ => false
  end.

(** The replies of the audio interface ([btd_error_*] of [error.h]). *)
Inductive audio_reply :=
| ReplyOk
| ErrInProgress
| ErrAlreadyConnected
| ErrNotConnected
| ErrFailed (text : string).

Inductive audio_effect :=
| SendMessage (to : DBusMessage) (r : audio_reply)
| PropertyChanged (name value : string)
| AvrcpConnect
| AvrcpDisconnect
| SinkDisconnect (shutdown : bool)
| SinkSetupStream
| GSourceRemove (id : Z)
| TimeoutAddSeconds (secs id : Z)
| WatchAdded (id : Z)
| WatchRemoved (id : Z).

(** [struct dev_priv]. *)
Record dev_priv := mkPriv {
  state : audio_state_t;
  sink_state : sink_state_t;
  avctp_state : avctp_state_t;
  conn_req : option DBusMessage;
  dc_req : option DBusMessage;
  control_timer : Z;
  avdtp_timer : Z;
  headset_timer : Z;
  dc_id : Z;
  disconnecting : bool
}.

(** Modelled from the spec: the disconnect watches of the device core
    ([src/device.c], not among the sources): the handles registered on the
    underlying device record and the counter new handles come from. *)
Record btd_device := mkBtd {
  watches : list Z;
  watch_seq : Z
}.

(** [struct audio_device]: which sub-profiles it has, and what it owns. *)
Record audio_device := mkDev {
  btd_dev : btd_device;
  sink : bool;
  source : bool;
  control : bool;
  auto_connect : bool;
  priv : dev_priv
}.

Definition with_state (v : audio_state_t) (p : dev_priv) : dev_priv :=
  mkPriv v (sink_state p) (avctp_state p) (conn_req p) (dc_req p)
    (control_timer p) (avdtp_timer p) (headset_timer p) (dc_id p)
    (disconnecting p).

Definition with_sink_state (v : sink_state_t) (p : dev_priv) : dev_priv :=
  mkPriv (state p) v (avctp_state p) (conn_req p) (dc_req p)
    (control_timer p) (avdtp_timer p) (headset_timer p) (dc_id p)
    (disconnecting p).

Definition with_avctp_state (v : avctp_state_t) (p : dev_priv) : dev_priv :=
  mkPriv (state p) (sink_state p) v (conn_req p) (dc_req p)
    (control_timer p) (avdtp_timer p) (headset_timer p) (dc_id p)
    (disconnecting p).

Definition with_conn_req (v : option DBusMessage) (p : dev_priv) : dev_priv :=
  mkPriv (state p) (sink_state p) (avctp_state p) v (dc_req p)
    (control_timer p) (avdtp_timer p) (headset_timer p) (dc_id p)
    (disconnecting p).

Definition with_dc_req (v : option DBusMessage) (p : dev_priv) : dev_priv :=
  mkPriv (state p) (sink_state p) (avctp_state p) (conn_req p) v
    (control_timer p) (avdtp_timer p) (headset_timer p) (dc_id p)
    (disconnecting p).

Definition with_control_timer (v : Z) (p : dev_priv) : dev_priv :=
  mkPriv (state p) (sink_state p) (avctp_state p) (conn_req p) (dc_req p) v
    (avdtp_timer p) (headset_timer p) (dc_id p) (disconnecting p).

Definition with_avdtp_timer (v : Z) (p : dev_priv) : dev_priv :=
  mkPriv (state p) (sink_state p) (avctp_state p) (conn_req p) (dc_req p)
    (control_timer p) v (headset_timer p) (dc_id p) (disconnecting p).

Definition with_headset_timer (v : Z) (p : dev_priv) : dev_priv :=
  mkPriv (state p) (sink_state p) (avctp_state p) (conn_req p) (dc_req p)
    (control_timer p) (avdtp_timer p) v (dc_id p) (disconnecting p).

Definition with_dc_id (v : Z) (p : dev_priv) : dev_priv :=
  mkPriv (state p) (sink_state p) (avctp_state p) (conn_req p) (dc_req p)
    (control_timer p) (avdtp_timer p) (headset_timer p) v (disconnecting p).

Definition with_disconnecting (v : bool) (p : dev_priv) : dev_priv :=
  mkPriv (state p) (sink_state p) (avctp_state p) (conn_req p) (dc_req p)
    (control_timer p) (avdtp_timer p) (headset_timer p) (dc_id p) v.

Definition with_priv (p : dev_priv) (d : audio_device) : audio_device :=
  mkDev (btd_dev d) (sink d) (source d) (control d) (auto_connect d) p.

Definition with_btd_dev (b : btd_device) (d : audio_device) : audio_device :=
  mkDev b (sink d) (source d) (control d) (auto_connect d) (priv d).

Definition with_auto_connect (v : bool) (d : audio_device) : audio_device :=
  mkDev (btd_dev d) (sink d) (source d) (control d) v (priv d).

(** Modelled from the spec: [device_add_disconnect_watch] and
    [device_remove_disconnect_watch] of the device core: a new handle is
    the next value of a counter, never 0, and is appended to the watches
    of the device; removal drops the watch with that handle. *)
Definition device_add_disconnect_watch (b : btd_device) : Z * btd_device :=
  let id := watch_seq b + 1 in
  (id, mkBtd (watches b ++ [id]) id).

Definition device_remove_disconnect_watch (b : btd_device) (id : Z)
  : btd_device :=
  mkBtd (Adapter.g_slist_remove Z.eq_dec (watches b) id) (watch_seq b).

Definition state2str (s : audio_state_t) : string :=
  match s with
  | AUDIO_STATE_DISCONNECTED => "disconnected"
  | AUDIO_STATE_CONNECTING => "connecting"
  | AUDIO_STATE_CONNECTED => "connected"
  end.

Definition device_remove_control_timer (d : audio_device)
  : audio_device * list audio_effect :=
  (with_priv (with_control_timer 0 (priv d)) d,
   if negb (control_timer (priv d) =? 0)
   then [GSourceRemove (control_timer (priv d))] else []).

Definition device_remove_avdtp_timer (d : audio_device)
  : audio_device * list audio_effect :=
  (with_priv (with_avdtp_timer 0 (priv d)) d,
   if negb (avdtp_timer (priv d) =? 0)
   then [GSourceRemove (avdtp_timer (priv d))] else []).

Definition device_remove_headset_timer (d : audio_device)
  : audio_device * list audio_effect :=
  (with_priv (with_headset_timer 0 (priv d)) d,
   if negb (headset_timer (priv d) =? 0)
   then [GSourceRemove (headset_timer (priv d))] else []).

(** [device_set_control_timer]; [id] is the source GLib hands out. *)
Definition device_set_control_timer (id : Z) (d : audio_device)
  : audio_device * list audio_effect :=
  if negb (control d) then (d, [])
  else if negb (control_timer (priv d) =? 0) then (d, [])
  else (with_priv (with_control_timer id (priv d)) d,
        [TimeoutAddSeconds CONTROL_CONNECT_TIMEOUT id]).

(** The watch bookkeeping that opens [device_set_state], before the
    test for an unchanged state. *)
Definition set_state_watch (new_state : audio_state_t) (d : audio_device)
  : audio_device * list audio_effect :=
  match new_state with
  | AUDIO_STATE_DISCONNECTED =>
      if negb (dc_id (priv d) =? 0)
      then (with_priv (with_dc_id 0 (priv d))
              (with_btd_dev
                 (device_remove_disconnect_watch (btd_dev d) (dc_id (priv d)))
                 d),
            [WatchRemoved (dc_id (priv d))])
      else (d, [])
  | AUDIO_STATE_CONNECTING =>
      let '(id, b) := device_add_disconnect_watch (btd_dev d) in
      (with_priv (with_dc_id id (priv d)) (with_btd_dev b d), [WatchAdded id])
  | AUDIO_STATE_CONNECTED => (d, [])
  end.

(** [device_set_state]. *)
Definition device_set_state (new_state : audio_state_t) (d : audio_device)
  : audio_device * list audio_effect :=
  let state_str := state2str new_state in
  let '(d1, t1) := set_state_watch new_state d in
  if audio_state_eqb (state (priv d1)) new_state then (d1, t1)
  else
    let p2 := with_state new_state (priv d1) in
    let '(p3, t3) :=
      match new_state with
      | AUDIO_STATE_DISCONNECTED =>
          match dc_req p2 with
          | Some m =>
              (with_disconnecting false (with_dc_req None p2),
               [SendMessage m ReplyOk])
          | None => (with_disconnecting false p2, [])
          end
      | _ => (p2, [])
      end in
    let '(p4, t4) :=
      match conn_req p3 with
      | Some m =>
          if negb (audio_state_eqb new_state AUDIO_STATE_CONNECTING)
          then (with_conn_req None p3,
                [SendMessage m
                   (if audio_state_eqb new_state AUDIO_STATE_CONNECTED
                    then ReplyOk else ErrFailed "Connect Failed")])
          else (p3, [])
      | None => (p3, [])
      end in
    (with_priv p4 d1, t1 ++ t3 ++ t4 ++ [PropertyChanged "State" state_str]).

(** [disconnect_cb], what a device-level watch runs. *)
Definition disconnect_cb (d : audio_device)
  : audio_device * list audio_effect :=
  if audio_state_eqb (state (priv d)) AUDIO_STATE_DISCONNECTED then (d, [])
  else if disconnecting (priv d) then (d, [])
  else
    let d0 := with_priv (with_disconnecting true (priv d)) d in
    let '(d1, t1) := device_remove_control_timer d0 in
    let '(d2, t2) := device_remove_avdtp_timer d1 in
    let '(d3, t3) := device_remove_headset_timer d2 in
    let t4 := if control d3 then [AvrcpDisconnect] else [] in
    if sink d3 && negb (sink_state_eqb (sink_state (priv d3))
                                       SINK_STATE_DISCONNECTED)
    then (d3, t1 ++ t2 ++ t3 ++ t4 ++ [SinkDisconnect true])
    else (with_priv (with_disconnecting false (priv d3)) d3,
          t1 ++ t2 ++ t3 ++ t4).

(** [device_sink_cb]. *)
Definition device_sink_cb (old_state new_state : sink_state_t)
  (d : audio_device) : audio_device * list audio_effect :=
  if negb (sink d) then (d, [])
  else
    let d0 := with_priv (with_sink_state new_state (priv d)) d in
    match new_state with
    | SINK_STATE_DISCONNECTED =>
        let '(d1, t1) :=
          if control d0
          then let '(d', t') := device_remove_control_timer d0 in
               (d', t' ++ [AvrcpDisconnect])
          else (d0, []) in
        let '(d2, t2) := device_set_state AUDIO_STATE_DISCONNECTED d1 in
        (d2, t1 ++ t2)
    | SINK_STATE_CONNECTING =>
        let '(d1, t1) := device_remove_avdtp_timer d0 in
        let '(d2, t2) := device_set_state AUDIO_STATE_CONNECTING d1 in
        (d2, t1 ++ t2)
    | SINK_STATE_CONNECTED =>
        if sink_state_eqb old_state SINK_STATE_PLAYING then (d0, [])
        else device_set_state AUDIO_STATE_CONNECTED d0
    | SINK_STATE_PLAYING => (d0, [])
    end.

(** [device_avctp_cb]. *)
Definition device_avctp_cb (old_state new_state : avctp_state_t)
  (d : audio_device) : audio_device * list audio_effect :=
  if negb (control d) then (d, [])
  else
    let d0 := with_priv (with_avctp_state new_state (priv d)) d in
    match new_state with
    | AVCTP_STATE_CONNECTING => device_remove_control_timer d0
    | _ => (d0, [])
    end.

(** [device_avdtp_cb]; [setup_active] is [avdtp_stream_setup_active] of
    the session and [id] the timer source GLib would hand out. *)
Definition device_avdtp_cb (new_state : avdtp_session_state_t)
  (setup_active : bool) (id : Z) (d : audio_device)
  : audio_device * list audio_effect :=
  if negb (control d) then (d, [])
  else
    match new_state with
    | AVDTP_SESSION_STATE_CONNECTED =>
        if setup_active then device_set_control_timer id d
        else (d, [AvrcpConnect])
    | _ => (d, [])
    end.

(** A state callback run by a sub-profile while a call into it is still
    on the stack. *)
Inductive callback :=
| SinkCb (old_state new_state : sink_state_t)
| AvctpCb (old_state new_state : avctp_state_t)
| AvdtpCb (new_state : avdtp_session_state_t) (setup_active : bool) (id : Z).

Definition fire (cb : callback) (d : audio_device)
  : audio_device * list audio_effect :=
  match cb with
  | SinkCb o n => device_sink_cb o n d
  | AvctpCb o n => device_avctp_cb o n d
  | AvdtpCb n active id => device_avdtp_cb n active id d
  end.

Fixpoint fire_all (cbs : list callback) (d : audio_device)
  : audio_device * list audio_effect :=
  match cbs with
  | [] => (d, [])
  | cb :: rest =>
      let '(d1, t1) := fire cb d in
      let '(d2, t2) := fire_all rest d1 in
      (d2, t1 ++ t2)
  end.

(** [dev_connect], the handler of Connect.  [session] tells whether
    [avdtp_get] returned a session, [cbs] are the callbacks
    [sink_setup_stream] runs before it returns.  The result is the
    reply handed back, [None] when the answer is deferred. *)
Definition dev_connect (session : bool) (cbs : list callback)
  (msg : DBusMessage) (d : audio_device)
  : option audio_reply * audio_device * list audio_effect :=
  match state (priv d) with
  | AUDIO_STATE_CONNECTING => (Some ErrInProgress, d, [])
  | AUDIO_STATE_CONNECTED => (Some ErrAlreadyConnected, d, [])
  | AUDIO_STATE_DISCONNECTED =>
      let d0 := with_auto_connect true d in
      let setup :=
        if sink d0
        then if session
             then let '(d', t') := fire_all cbs d0 in
                  Some (d', SinkSetupStream :: t')
             else None
        else Some (d0, []) in
      match setup with
      | None => (Some (ErrFailed "Failed to get AVDTP session"), d0, [])
      | Some (d1, t1) =>
          if negb (audio_state_eqb (state (priv d1)) AUDIO_STATE_CONNECTING)
          then (Some (ErrFailed "Connect Failed"), d1, t1)
          else (None, with_priv (with_conn_req (Some msg) (priv d1)) d1, t1)
      end
  end.

(** A run of [device_set_state] calls. *)
Fixpoint set_states (l : list audio_state_t) (d : audio_device)
  : audio_device :=
  match l with
  | [] => d
  | s :: rest => set_states rest (fst (device_set_state s d))
  end.

End Audio.

(** ** Instances of the library functions and sample data *)

Module Sample.
Import CString.
Import Adapter.

Definition hexval (c : ascii) : option Z :=
  let n := code c in
  if (48 <=? n) && (n <=? 57) then Some (n - 48)
  else if (65 <=? n) && (n <=? 70) then Some (n - 55)
  else if (97 <=? n) && (n <=? 102) then Some (n - 87)
  else None.

Fixpoint hex_acc (s : string) (acc : Z) : Z :=
  match s with
  | EmptyString => acc
  | String c r =>
      match hexval c with
      | Some v => hex_acc r (acc * 16 + v)
      | None => hex_acc r acc
      end
  end.

(** [str2ba] on a well-formed address: the six bytes, first one highest. *)
Definition str2ba (s : string) : bdaddr := hex_acc s 0.

Definition hexdigit (n : Z) : ascii :=
  ascii_of_N (Z.to_N (if n <? 10 then n + 48 else n + 55)).

Fixpoint ba2str_bytes (n : nat) (ba : Z) : string :=
  match n with
  | O => EmptyString
  | S k =>
      let b := (ba / 256 ^ Z.of_nat k) mod 256 in
      String (hexdigit (b / 16))
        (String (hexdigit (b mod 16))
           (match k with
            | O => EmptyString
            | S _ => String ":" (ba2str_bytes k ba)
            end))
  end.

Definition ba2str (ba : bdaddr) : string := ba2str_bytes 6 ba.

Fixpoint check_pairs (n : nat) (s : string) : bool :=
  match n, s with
  | S O, String a (String b EmptyString) =>
      is_some (hexval a) && is_some (hexval b)
  | S (S _ as k), String a (String b (String c r)) =>
      is_some (hexval a) && is_some (hexval b) && (code c =? 58)
      && check_pairs k r
  | _, _ => false
  end.

(** [check_address]: seventeen characters, six pairs of hex digits
    with colons between. *)
Definition check_address (s : string) : Z :=
  if check_pairs 6 s then 0 else -1.

(** Every external call succeeds; no "on" preference is stored. *)
Definition env_ok : hci_env :=
  mkEnv HCID_OFFMODE_NOSCAN 3 0 0 0 0 0 0 0 0 41 42 0 (fun _ => None)
        3 0 0 0 0 0 0 0 64.

(** As [env_ok], but powering the device up fails with [errno]. *)
Definition env_up_fails (errno : Z) : hci_env :=
  mkEnv HCID_OFFMODE_NOSCAN 3 (-1) errno 0 0 0 0 0 0 41 42 0
        (fun _ => None) 3 0 0 0 0 0 0 0 64.

Definition call (sender member : string) (args : list dbus_arg)
  : DBusMessage :=
  mkMsg sender "/org/bluez/hci0" member args.

(** An adapter that is up and connectable, with an agent, idle. *)
Definition adapter0 : adapter :=
  mkAdapter "00:11:22:33:44:55" true MODE_CONNECTABLE MODE_CONNECTABLE
            SCAN_PAGE 180 0 [] (Some (mkAgent None)) false false false 0
            None 0 [] None [] [].

(** The same radio, administratively down and off. *)
Definition adapter_down : adapter :=
  mkAdapter "00:11:22:33:44:55" false MODE_OFF MODE_OFF
            SCAN_DISABLED 180 0 [] (Some (mkAgent None)) false false false 0
            None 0 [] None [] [].

(** Discoverable on behalf of one session, the agent gone since. *)
Definition adapter_in_session : adapter :=
  mkAdapter "00:11:22:33:44:55" true MODE_DISCOVERABLE MODE_CONNECTABLE
            (Z.lor SCAN_PAGE SCAN_INQUIRY) 180 0
            [mkReq (call ":1.7" "RequestMode" [ArgString "discoverable"])
                   MODE_DISCOVERABLE 42]
            None false false false 0 None 0 [] None [] [].

(** Limited discoverable, no session, discoverable timeout [t]. *)
Definition adapter_limited (t : Z) : adapter :=
  mkAdapter "00:11:22:33:44:55" true MODE_LIMITED MODE_LIMITED
            (Z.lor SCAN_PAGE SCAN_INQUIRY) t 0 [] (Some (mkAgent None))
            false false false 0 None 0 [] None [] [].

(** Up and connectable with a standard discovery running. *)
Definition adapter_discovering : adapter :=
  mkAdapter "00:11:22:33:44:55" true MODE_CONNECTABLE MODE_CONNECTABLE
            SCAN_PAGE 180 0 [] (Some (mkAgent None)) true false false
            STD_INQUIRY (Some ":1.7") 7 [] None [] [].

(** Up and connectable with a periodic discovery running. *)
Definition adapter_periodic : adapter :=
  mkAdapter "00:11:22:33:44:55" true MODE_CONNECTABLE MODE_CONNECTABLE
            SCAN_PAGE 180 0 [] (Some (mkAgent None)) false true true
            PERIODIC_INQUIRY None 0 [] None [] [].

Definition peer : string := "00:1A:7D:DA:71:13".

Definition bonding0 : bonding_request_info :=
  mkBonding (call ":1.7" "CreateBonding" [ArgString peer]) (str2ba peer)
            false 5 6 0 false false.

(** [adapter0] with the bonding [bonding0] in flight and the PIN request
    for its address already replied to. *)
Definition adapter_bonding : adapter :=
  mkAdapter "00:11:22:33:44:55" true MODE_CONNECTABLE MODE_CONNECTABLE
            SCAN_PAGE 180 0 [] (Some (mkAgent None)) false false false 0
            None 0 [] (Some bonding0) [mkPin (str2ba peer) true] [].

End Sample.

Module AudioSample.
Import Audio.

(** A registered device with a sink and a control sub-profile, as
    [audio_device_register] leaves it. *)
Definition device0 : audio_device :=
  mkDev (mkBtd [] 0) true false true false
        (mkPriv AUDIO_STATE_DISCONNECTED SINK_STATE_DISCONNECTED
                AVCTP_STATE_DISCONNECTED None None 0 0 0 0 false).

Definition connect_call : DBusMessage :=
  Adapter.mkMsg ":1.9" "/org/bluez/hci0/dev_00_1A_7D_DA_71_13" "Connect" [].

End AudioSample.

(** The order of the aggregate states: Connecting is entered from
    Disconnected, Connected from Connecting, Disconnected from anywhere;
    Disconnected and Connected may be set again. *)
Definition in_lifecycle (old_state new_state : Audio.audio_state_t) : bool :=
  match old_state, new_state with
  | _, Audio.AUDIO_STATE_DISCONNECTED => true
  | Audio.AUDIO_STATE_DISCONNECTED, Audio.AUDIO_STATE_CONNECTING => true
  | Audio.AUDIO_STATE_CONNECTING, Audio.AUDIO_STATE_CONNECTED => true
  | Audio.AUDIO_STATE_CONNECTED, Audio.AUDIO_STATE_CONNECTED => true
  | _, _ => false
  end.

Fixpoint all_in_lifecycle (s : Audio.audio_state_t)
  (l : list Audio.audio_state_t) : bool :=
  match l with
  | [] => true
  | n :: rest => in_lifecycle s n && all_in_lifecycle n rest
  end.

(** One watch, held exactly while the device is not Disconnected. *)
Definition one_watch (d : Audio.audio_device) : Prop :=
  0 <= Audio.watch_seq (Audio.btd_dev d) /\
  match Audio.state (Audio.priv d) with
  | Audio.AUDIO_STATE_DISCONNECTED =>
      Audio.watches (Audio.btd_dev d) = [] /\ Audio.dc_id (Audio.priv d) = 0
  | _ =>
      Audio.watches (Audio.btd_dev d) = [Audio.dc_id (Audio.priv d)]
      /\ Audio.dc_id (Audio.priv d) <> 0
  end.

(** ** Letter case *)

(** The letters, capital and small, each capital paired with its small
    letter.  What it means for two strings to be the same but for the
    case of their letters is said here on its own, character by character
    from this table, with no use of [tolower]. *)
Definition capitals : string := "ABCDEFGHIJKLMNOPQRSTUVWXYZ".
Definition smalls : string := "abcdefghijklmnopqrstuvwxyz".

Definition letters : list (ascii * ascii) :=
  combine (list_ascii_of_string capitals) (list_ascii_of_string smalls).

Inductive same_letter : ascii -> ascii -> Prop :=
| same_char (c : ascii) : same_letter c c
| capital_small (C s : ascii) : In (C, s) letters -> same_letter C s
| small_capital (C s : ascii) : In (C, s) letters -> same_letter s C.

Inductive same_but_case : string -> string -> Prop :=
| same_empty : same_but_case EmptyString EmptyString
| same_next (c c' : ascii) (s s' : string) :
    same_letter c c' -> same_but_case s s' ->
    same_but_case (String c s) (String c' s').

(** The capital a small letter belongs to. *)
Definition capital_of (c : ascii) : option ascii :=
  option_map fst (find (fun p => Ascii.eqb (snd p) c) letters).

(** The names [str2mode] knows. *)
Definition mode_names : list string :=
  ["off"; "connectable"; "discoverable"; "limited"; "on"].

(** ** When a hardware step of the mode commit counts as failed *)

(** The words of the specification: the power-up or power-down ioctl, the
    limited-discoverable command or the sending of write-scan-enable
    fails, or the hardware answers with a nonzero status; opening the
    command link is a step as well. *)
Definition step_failed (ef : Adapter.effect) : bool :=
  match ef with
  | Adapter.HciOpenDev dd => dd <? 0
  | Adapter.IoctlDevUp ret _ => negb (ret =? 0)
  | Adapter.IoctlDevDown ret _ => ret <? 0
  | Adapter.SetLimitedDiscoverable _ err => err <? 0
  | Adapter.WriteScanEnable _ ret _ status => (ret <? 0) || negb (status =? 0)
  | _ => false
  end.

(** The same, with a power-up that finds the device already up
    ([EALREADY]) let through, as the source lets it through. *)
Definition step_aborts (ef : Adapter.effect) : bool :=
  match ef with
  | Adapter.IoctlDevUp ret errno =>
      negb (ret =? 0) && negb (errno =? Adapter.EALREADY)
  | _ => step_failed ef
  end.

Definition is_timeout_add (ef : Adapter.effect) : bool :=
  match ef with
  | Adapter.TimeoutAdd _ _ => true
  | _ => false
  end.

Definition is_inquiry (ef : Adapter.effect) : bool :=
  match ef with
  | Adapter.Inquiry _ _ _ => true
  | _ => false
  end.

(** The replies sent on the bus during a call, in order. *)
Fixpoint sent (t : list Adapter.effect)
  : list (Adapter.DBusMessage * Adapter.DBusReply) :=
  match t with
  | [] => []
  | Adapter.Send m r :: rest => (m, r) :: sent rest
  | _ :: rest => sent rest
  end.

(** ** How a trace uses the command link *)

Inductive link_use :=
| LinkOpen (ok : bool)
| LinkClose
| LinkCommand
| LinkNone.

Definition link_use_of (ef : Adapter.effect) : link_use :=
  match ef with
  | Adapter.HciOpenDev dd => LinkOpen (negb (dd <? 0))
  | Adapter.HciCloseDev => LinkClose
  | Adapter.IoctlDevUp _ _ | Adapter.IoctlDevDown _ _
  | Adapter.SetLimitedDiscoverable _ _ | Adapter.WriteScanEnable _ _ _ _
  | Adapter.Inquiry _ _ _ | Adapter.ReadRemoteNameCancel _ _
  | Adapter.AuthRequested _ _ _ _ | Adapter.PinCodeNegReply _ => LinkCommand
  | _ => LinkNone
  end.

(** A trace keeps the discipline of the link when a link is opened only
    while none is open, commands and the close go to an open link, and no
    link is open at the end.  [opened] tells whether one is open before
    the trace. *)
Fixpoint link_protocol (opened : bool) (t : list Adapter.effect) : bool :=
  match t with
  | [] => negb opened
  | ef :: rest =>
      match link_use_of ef with
      | LinkOpen ok => negb opened && link_protocol ok rest
      | LinkClose => opened && link_protocol false rest
      | LinkCommand => opened && link_protocol opened rest
      | LinkNone => link_protocol opened rest
      end
  end.

Definition is_write_device_mode (ef : Adapter.effect) : bool :=
  match ef with
  | Adapter.WriteDeviceMode _ => true
  | _ => false
  end.

(** The names under which the sessions of an adapter are held. *)
Definition session_senders (a : Adapter.adapter) : list string :=
  map (fun r => CString.cstr (Adapter.msg_sender (Adapter.req_msg r)))
      (Adapter.sessions a).

Definition is_property_changed (ef : Audio.audio_effect) : bool :=
  match ef with
  | Audio.PropertyChanged _ _ => true
  | _ => false
  end.

(** The answers a trace of the audio device sends, in order. *)
Fixpoint audio_sent (t : list Audio.audio_effect)
  : list (Audio.DBusMessage * Audio.audio_reply) :=
  match t with
  | [] => []
  | Audio.SendMessage m r :: rest => (m, r) :: audio_sent rest
  | _ :: rest => audio_sent rest
  end.

(** ** profiles/audio/device.c: the remaining handlers *)

Module AudioRequests.
Import Audio.

(** [control_connect_timeout], the control-connect timer firing. *)
Definition control_connect_timeout (d : audio_device)
  : audio_device * list audio_effect :=
  (with_priv (with_control_timer 0 (priv d)) d,
   if control d then [AvrcpConnect] else []).

(** [dev_disconnect], the handler of Disconnect; the result is the reply
    handed back, [None] when the answer is deferred. *)
Definition dev_disconnect (msg : DBusMessage) (d : audio_device)
  : option audio_reply * audio_device * list audio_effect :=
  if audio_state_eqb (state (priv d)) AUDIO_STATE_DISCONNECTED
  then (Some ErrNotConnected, d, [])
  else
    match dc_req (priv d) with
    | Some _ => (Some ReplyOk, d, [])
    | None =>
        let d0 := with_priv (with_dc_req (Some msg) (priv d)) d in
        let '(d1, t1) :=
          if control d0
          then let '(d', t') := device_remove_control_timer d0 in
               (d', t' ++ [AvrcpDisconnect])
          else (d0, []) in
        if sink d1 && negb (sink_state_eqb (sink_state (priv d1))
                                           SINK_STATE_DISCONNECTED)
        then (None, d1, t1 ++ [SinkDisconnect true])
        else (Some ReplyOk, with_priv (with_dc_req None (priv d1)) d1, t1)
    end.

(** [dev_get_properties]: the one entry of the dictionary. *)
Definition dev_get_properties (d : audio_device) : list (string * string) :=
  [("State", state2str (state (priv d)))].

(** [device_free]: the sources and the watch the device gives up, and
    the underlying device record as it is left. *)
Definition device_free (d : audio_device) : btd_device * list audio_effect :=
  let timers :=
    (if negb (control_timer (priv d) =? 0)
     then [GSourceRemove (control_timer (priv d))] else [])
    ++ (if negb (avdtp_timer (priv d) =? 0)
        then [GSourceRemove (avdtp_timer (priv d))] else [])
    ++ (if negb (headset_timer (priv d) =? 0)
        then [GSourceRemove (headset_timer (priv d))] else []) in
  if negb (dc_id (priv d) =? 0)
  then (device_remove_disconnect_watch (btd_dev d) (dc_id (priv d)),
        timers ++ [WatchRemoved (dc_id (priv d))])
  else (btd_dev d, timers).

(** The calls made by a run of [device_set_state]. *)
Fixpoint set_states_trace (l : list audio_state_t) (d : audio_device)
  : list audio_effect :=
  match l with
  | [] => []
  | s :: rest =>
      snd (device_set_state s d)
      ++ set_states_trace rest (fst (device_set_state s d))
  end.

(** The state a client that follows the PropertyChanged signals
    believes the device to be in, [init] being what it believed before. *)
Fixpoint announced_state (t : list audio_effect) (init : string) : string :=
  match t with
  | [] => init
  | PropertyChanged _ value :: rest => announced_state rest value
  | _ :: rest => announced_state rest init
  end.

(** The requests a device holds unanswered. *)
Definition pending (d : audio_device) : list DBusMessage :=
  (match dc_req (priv d) with Some m => [m] | None => [] end)
  ++ (match conn_req (priv d) with Some m => [m] | None => [] end).

End AudioRequests.

(** * Properties *)

Import CString.
Import Adapter.

(** ** Case folding and [strcasecmp] *)

Lemma code_inj (c1 c2 : ascii) : code c1 = code c2 -> c1 = c2.
Proof.
  unfold code; intros H.
  apply N2Z.inj in H.
  rewrite <- (ascii_N_embedding c1), <- (ascii_N_embedding c2).
  now rewrite H.
Qed.

Lemma tolower_zero (c : ascii) : code (tolower c) = 0 <-> code c = 0.
Proof.
  destruct c as [[] [] [] [] [] [] [] []]; vm_compute; split; congruence.
Qed.

Lemma code_zero_eqb (c : ascii) : (code c =? 0) = true <-> code c = 0.
Proof. apply Z.eqb_eq. Qed.

(** [strcasecmp] returns 0 exactly on C strings that fold to the same
    text. *)
Lemma strcasecmp_zero_iff (s1 s2 : string) :
  strcasecmp s1 s2 = 0 <-> lower (cstr s1) = lower (cstr s2).
Proof.
  pose proof (fun c => proj1 (tolower_zero c)) as Hdown.
  pose proof (fun c => proj2 (tolower_zero c)) as Hup.
  revert s2; induction s1 as [|c1 r1 IH]; intros [|c2 r2]; simpl.
  - tauto.
  - destruct (Z.eqb_spec (code c2) 0) as [Hz|Hz]; simpl.
    + apply Hup in Hz. split; [reflexivity | lia].
    + split; [intros H | discriminate].
      exfalso. apply Hz, Hdown. lia.
  - destruct (Z.eqb_spec (code c1) 0) as [Hz|Hz]; simpl.
    + apply Hup in Hz. split; [reflexivity | lia].
    + split; [intros H | discriminate].
      exfalso. apply Hz, Hdown. lia.
  - destruct (Z.eqb_spec (code (tolower c1) - code (tolower c2)) 0)
      as [Hd|Hd].
    + assert (tolower c1 = tolower c2) as Ht by (apply code_inj; lia).
      destruct (Z.eqb_spec (code c1) 0) as [Hz1|Hz1].
      * assert (code c2 = 0) as Hz2.
        { apply Hdown. rewrite <- Ht. now apply Hup. }
        apply Z.eqb_eq in Hz2. rewrite Hz2. tauto.
      * assert (code c2 <> 0) as Hz2.
        { intros Hz2. apply Hz1, Hdown. rewrite Ht. now apply Hup. }
        apply Z.eqb_neq in Hz2. rewrite Hz2. simpl. rewrite Ht, IH.
        split; [congruence | intros H; now inversion H].
    + split; [contradiction | intros H; exfalso].
      destruct (Z.eqb_spec (code c1) 0) as [Hz1|Hz1];
        destruct (Z.eqb_spec (code c2) 0) as [Hz2|Hz2]; simpl in H.
      * apply Hup in Hz1. apply Hup in Hz2. lia.
      * discriminate.
      * discriminate.
      * inversion H as [[Ht Hr]]. rewrite Ht in Hd. lia.
Qed.

Lemma strcasecmp_eqb (name s : string) :
  (strcasecmp name s =? 0) = true <-> lower (cstr name) = lower (cstr s).
Proof. rewrite Z.eqb_eq. apply strcasecmp_zero_iff. Qed.

Lemma strcasecmp_neqb (name s : string) :
  (strcasecmp name s =? 0) = false <-> lower (cstr name) <> lower (cstr s).
Proof. rewrite Z.eqb_neq, strcasecmp_zero_iff. tauto. Qed.

(** [tolower] against the table of letters: it sends a capital to its
    small letter and leaves every other character alone, so two strings
    fold to the same text exactly when they are the same but for case. *)
Lemma tolower_letters (C s : ascii) :
  In (C, s) letters -> tolower C = s /\ tolower s = s /\ capital_of s = Some C.
Proof.
  intros H. unfold letters, capitals, smalls in H. simpl in H.
  repeat (destruct H as [H|H];
          [inversion H; subst; vm_compute; repeat split|]).
  contradiction.
Qed.

Lemma tolower_table (c : ascii) :
  tolower c = c \/ In (c, tolower c) letters.
Proof.
  destruct c as [[] [] [] [] [] [] [] []];
    first [left; reflexivity | right; vm_compute; tauto].
Qed.

Lemma same_letter_tolower (c c' : ascii) :
  same_letter c c' <-> tolower c = tolower c'.
Proof.
  split.
  - intros H. destruct H as [c|C s H|C s H].
    + reflexivity.
    + destruct (tolower_letters C s H) as (H1 & H2 & _). congruence.
    + destruct (tolower_letters C s H) as (H1 & H2 & _). congruence.
  - intros H.
    destruct (tolower_table c) as [Hc|Hc];
      destruct (tolower_table c') as [Hc'|Hc'].
    + rewrite Hc, Hc' in H. subst. constructor.
    + rewrite Hc in H. rewrite <- H in Hc'. now apply small_capital.
    + rewrite Hc' in H. rewrite H in Hc. now apply capital_small.
    + rewrite H in Hc.
      destruct (tolower_letters _ _ Hc) as (_ & _ & K).
      destruct (tolower_letters _ _ Hc') as (_ & _ & K').
      rewrite K in K'. inversion K'. constructor.
Qed.

Lemma same_but_case_lower (s s' : string) :
  same_but_case s s' <-> lower s = lower s'.
Proof.
  split.
  - induction 1 as [|c c' s s' Hc Hs IH]; simpl; [reflexivity|].
    apply same_letter_tolower in Hc. congruence.
  - revert s'; induction s as [|c s IH]; intros [|c' s']; simpl;
      try discriminate.
    + constructor.
    + intros H. inversion H as [[Hc Hs]].
      constructor; [now apply same_letter_tolower | now apply IH].
Qed.

(** [strcasecmp] returns 0 exactly on C strings that are the same but for
    the case of their letters. *)
Lemma strcasecmp_same_but_case (s1 s2 : string) :
  strcasecmp s1 s2 = 0 <-> same_but_case (cstr s1) (cstr s2).
Proof. rewrite strcasecmp_zero_iff. symmetry. apply same_but_case_lower. Qed.

(** ** Mode names *)

Section ModeNames.

Variable str2ba : string -> bdaddr.
Variable fuel : nat.
Variable rd : bdaddr -> option string.
Variable addr : string.

Lemma str2mode_fold_eq (s s' : string) :
  lower (cstr s) = lower (cstr s') ->
  str2mode str2ba fuel rd addr s = str2mode str2ba fuel rd addr s'.
Proof.
  intros H.
  assert (forall name, (strcasecmp name s =? 0) = (strcasecmp name s' =? 0))
    as Hn.
  { intros name.
    destruct (strcasecmp name s' =? 0) eqn:E.
    - apply strcasecmp_eqb. apply strcasecmp_eqb in E. congruence.
    - apply strcasecmp_neqb. apply strcasecmp_neqb in E. congruence. }
  destruct fuel; cbn [str2mode]; now rewrite !Hn.
Qed.

Lemma str2mode_unknown (s : string) :
  ~ In (lower (cstr s)) ["off"; "connectable"; "discoverable"; "limited"; "on"]
  -> str2mode str2ba fuel rd addr s = Some MODE_UNKNOWN.
Proof.
  intros H.
  assert (forall name,
             In name ["off"; "connectable"; "discoverable"; "limited"; "on"]
             -> lower (cstr name) = name) as Hfix.
  { intros name Hin; simpl in Hin.
    repeat (destruct Hin as [<-|Hin]; [reflexivity|]). contradiction. }
  assert (forall name,
             In name ["off"; "connectable"; "discoverable"; "limited"; "on"]
             -> (strcasecmp name s =? 0) = false) as Hn.
  { intros name Hin. apply strcasecmp_neqb. rewrite (Hfix name Hin).
    intros E. apply H. now rewrite <- E. }
  destruct fuel; cbn [str2mode];
    rewrite !Hn by (simpl; tauto); reflexivity.
Qed.

Lemma str2mode_mode2str (m : Z) :
  In m [MODE_OFF; MODE_CONNECTABLE; MODE_DISCOVERABLE; MODE_LIMITED] ->
  str2mode str2ba fuel rd addr (mode2str m) = Some m.
Proof.
  simpl. intros H.
  repeat (destruct H as [<-|H]; [destruct fuel; reflexivity|]).
  contradiction.
Qed.

End ModeNames.

(** A string that is none of the five names, whatever the case of its
    letters, folds to none of them. *)
Lemma no_mode_name_lower (s : string) :
  (forall name, In name mode_names -> ~ same_but_case (cstr s) name) ->
  ~ In (lower (cstr s)) mode_names.
Proof.
  intros H Hin. apply (H (lower (cstr s)) Hin).
  apply same_but_case_lower.
  unfold mode_names in Hin. simpl in Hin.
  repeat (destruct Hin as [<-|Hin]; [reflexivity|]). contradiction.
Qed.

(** Fuel only bounds the calls through [on_mode]: a result does not
    change with more of it, and the recursion that does not end is that
    of a stored "on" preference that itself reads "on". *)
Lemma str2mode_unfold (str2ba : string -> bdaddr) (fuel : nat)
  (rd : bdaddr -> option string) (addr s : string) :
  str2mode str2ba fuel rd addr s =
  if strcasecmp "off" s =? 0 then Some MODE_OFF
  else if strcasecmp "connectable" s =? 0 then Some MODE_CONNECTABLE
  else if strcasecmp "discoverable" s =? 0 then Some MODE_DISCOVERABLE
  else if strcasecmp "limited" s =? 0 then Some MODE_LIMITED
  else if strcasecmp "on" s =? 0 then
    match fuel with
    | O => None
    | S f => on_mode str2ba (str2mode str2ba f rd addr) rd addr
    end
  else Some MODE_UNKNOWN.
Proof. destruct fuel; reflexivity. Qed.

Lemma str2mode_fuel_enough (str2ba : string -> bdaddr) (fuel : nat)
  (rd : bdaddr -> option string) (addr s : string) (v : Z) :
  str2mode str2ba fuel rd addr s = Some v ->
  str2mode str2ba (S fuel) rd addr s = Some v.
Proof.
  revert s; induction fuel as [|f IH]; intros s;
    rewrite (str2mode_unfold str2ba (S _)),
            (str2mode_unfold str2ba _ rd addr s);
    repeat match goal with
           | |- context [if ?b then _ else _] => destruct b
           end; try (intros H; exact H); try discriminate.
  unfold on_mode. destruct (rd (str2ba addr)) as [m|]; [apply IH | auto].
Qed.

Lemma str2mode_on_diverges (str2ba : string -> bdaddr)
  (rd : bdaddr -> option string) (addr m : string) :
  rd (str2ba addr) = Some m -> lower (cstr m) = "on" ->
  forall (fuel : nat) (s : string),
    lower (cstr s) = "on" -> str2mode str2ba fuel rd addr s = None.
Proof.
  intros Hrd Hm fuel. induction fuel as [|f IH]; intros s Hs;
    rewrite str2mode_unfold;
    rewrite (proj2 (strcasecmp_neqb "off" s)),
            (proj2 (strcasecmp_neqb "connectable" s)),
            (proj2 (strcasecmp_neqb "discoverable" s)),
            (proj2 (strcasecmp_neqb "limited" s)),
            (proj2 (strcasecmp_eqb "on" s))
      by (rewrite Hs; cbv; congruence);
    [reflexivity|].
  unfold on_mode. rewrite Hrd. now apply IH.
Qed.

(** C10: parsing the name of any of the four modes gives the mode back,
    whatever the address; two strings that are the same but for the case
    of their letters are parsed alike, so a mode name spelled in any mix
    of capital and small letters is parsed as that mode; and a string
    that is none of off, connectable, discoverable, limited, on, in any
    such spelling, is parsed as the unknown mode. *)
Theorem str2mode_names (str2ba : string -> bdaddr) (fuel : nat)
  (rd : bdaddr -> option string) (addr : string) :
  (forall m,
      In m [MODE_OFF; MODE_CONNECTABLE; MODE_DISCOVERABLE; MODE_LIMITED] ->
      str2mode str2ba fuel rd addr (mode2str m) = Some m)
  /\ (forall s s',
         same_but_case (cstr s) (cstr s') ->
         str2mode str2ba fuel rd addr s = str2mode str2ba fuel rd addr s')
  /\ (forall m s,
         In m [MODE_OFF; MODE_CONNECTABLE; MODE_DISCOVERABLE; MODE_LIMITED] ->
         same_but_case (cstr s) (mode2str m) ->
         str2mode str2ba fuel rd addr s = Some m)
  /\ (forall s,
         (forall name, In name mode_names ->
                       ~ same_but_case (cstr s) name) ->
         str2mode str2ba fuel rd addr s = Some MODE_UNKNOWN).
Proof.
  split; [|split; [|split]].
  - apply str2mode_mode2str.
  - intros s s' H. apply str2mode_fold_eq. now apply same_but_case_lower.
  - intros m s Hm Hs.
    rewrite (str2mode_fold_eq str2ba fuel rd addr s (mode2str m)).
    + now apply str2mode_mode2str.
    + apply same_but_case_lower in Hs. rewrite Hs. simpl in Hm.
      repeat (destruct Hm as [<-|Hm]; [reflexivity|]). contradiction.
  - intros s H. apply str2mode_unknown. now apply no_mode_name_lower.
Qed.

Lemma str2mode_names_witness :
  str2mode Sample.str2ba 0 (fun _ => None) "00:11:22:33:44:55"
           (mode2str MODE_LIMITED) = Some MODE_LIMITED
  /\ str2mode Sample.str2ba 0 (fun _ => None) "00:11:22:33:44:55"
              "DiscoverABLE"
     = str2mode Sample.str2ba 0 (fun _ => None) "00:11:22:33:44:55"
                "discoverable"
  /\ str2mode Sample.str2ba 0 (fun _ => None) "00:11:22:33:44:55"
              "OFF" = Some MODE_OFF
  /\ str2mode Sample.str2ba 0 (fun _ => None) "00:11:22:33:44:55"
              "visible" = Some MODE_UNKNOWN.
Proof.
  destruct (str2mode_names Sample.str2ba 0 (fun _ => None)
              "00:11:22:33:44:55") as (Hround & Hfold & Hname & Hunknown).
  split; [|split; [|split]].
  - apply Hround. simpl. auto.
  - apply Hfold. apply same_but_case_lower. reflexivity.
  - apply Hname; [simpl; auto|]. apply same_but_case_lower. reflexivity.
  - apply Hunknown. intros name Hin Hs.
    apply same_but_case_lower in Hs. simpl in Hin.
    repeat (destruct Hin as [<-|Hin]; [vm_compute in Hs; discriminate Hs|]).
    contradiction.
Defined.

(** ** Sessions *)

Lemma session_exit_keeps_mode (req : mode_req) (a : adapter) :
  mode (session_exit req a) = mode a
  /\ global_mode (session_exit req a) = global_mode a.
Proof. split; reflexivity. Qed.

Lemma release_mode_keeps_mode (msg : DBusMessage) (a : adapter) :
  mode (state (release_mode msg a)) = mode a.
Proof.
  unfold release_mode.
  destruct (g_slist_find_custom (sessions a) msg find_session); reflexivity.
Qed.

(** The first session records the enacted mode as the baseline. *)
Lemma request_mode_first_session (str2ba : string -> bdaddr) (fuel : nat)
  (e : hci_env) (msg : DBusMessage) (a : adapter) (o : outcome) :
  sessions a = [] ->
  request_mode str2ba fuel e msg a = Some o ->
  sessions (state o) <> [] ->
  global_mode (state o) = mode a /\ mode (state o) = mode a.
Proof.
  intros Hnil Hreq Hne. unfold request_mode in Hreq.
  rewrite Hnil in Hreq. simpl in Hreq.
  repeat match type of Hreq with
         | context [match ?x with _ => _ end] => destruct x eqn:?
         end;
    inversion Hreq; subst o; simpl in *; try congruence; auto.
Qed.

(** C1, the code at the failing input: one client asks for
    "discoverable" on a connectable adapter, the agent confirms, the mode
    is raised; the client releases its session.  The registry is empty
    again, and the adapter stays discoverable over a connectable
    baseline: [session_exit] re-commits nothing. *)
Theorem last_session_exit_leaves_mode_raised :
  exists a' : adapter,
    run Sample.str2ba 1 Sample.adapter0
        [RequestMode Sample.env_ok
           (Sample.call ":1.7" "RequestMode" [ArgString "discoverable"]);
         AgentReply Sample.env_ok None;
         ReleaseMode (Sample.call ":1.7" "ReleaseMode" [])] = Some a'
    /\ sessions a' = []
    /\ global_mode a' = MODE_CONNECTABLE
    /\ mode a' = MODE_DISCOVERABLE.
Proof.
  eexists. split; [vm_compute; reflexivity|].
  repeat split.
Qed.

(** ** SetMode below the enacted mode, no agent *)

(** C2, as the code has it: with a session active, a requested mode below
    the enacted one and no agent registered, SetMode answers success at
    once, records the requested mode as the baseline, leaves the enacted
    mode as it is and makes no external call. *)
Theorem set_mode_without_agent_only_records (str2ba : string -> bdaddr)
  (fuel : nat) (e : hci_env) (msg : DBusMessage) (a : adapter)
  (name : string) (rest : list dbus_arg) (g : Z) :
  msg_args msg = ArgString name :: rest ->
  str2mode str2ba fuel (read_on_mode e) (address a) name = Some g ->
  sessions a <> [] ->
  g < mode a ->
  agent a = None ->
  exists o : outcome,
    adapter_set_mode str2ba fuel e msg a = Some o
    /\ reply o = Some MethodReturn
    /\ global_mode (state o) = g
    /\ mode (state o) = mode a
    /\ trace o = [].
Proof.
  intros Hargs Hparse Hsess Hlt Hagent.
  unfold adapter_set_mode. rewrite Hargs. simpl. rewrite Hparse. simpl.
  destruct (Z.eqb_spec g (mode a)) as [Heq|_]; [lia|].
  destruct (sessions a) as [|r l] eqn:Hs; [contradiction|]. simpl.
  apply Z.ltb_lt in Hlt. rewrite Hlt.
  unfold confirm_mode. simpl. rewrite Hagent.
  eexists. split; [reflexivity|]. simpl. auto.
Qed.

Lemma set_mode_without_agent_only_records_witness :
  exists o : outcome,
    adapter_set_mode Sample.str2ba 1 Sample.env_ok
      (Sample.call ":1.9" "SetMode" [ArgString "connectable"])
      Sample.adapter_in_session = Some o
    /\ reply o = Some MethodReturn
    /\ global_mode (state o) = MODE_CONNECTABLE
    /\ mode (state o) = mode Sample.adapter_in_session
    /\ trace o = [].
Proof.
  apply (set_mode_without_agent_only_records Sample.str2ba 1 Sample.env_ok
           (Sample.call ":1.9" "SetMode" [ArgString "connectable"])
           Sample.adapter_in_session "connectable" [] MODE_CONNECTABLE).
  - reflexivity.
  - reflexivity.
  - discriminate.
  - reflexivity.
  - reflexivity.
Defined.

(** C2 as stated fails: a session is active, "connectable" is below the
    enacted "discoverable", no agent is registered, and the call answers
    success while the enacted mode is not the requested one. *)
Lemma set_mode_without_agent_not_enacted :
  sessions Sample.adapter_in_session <> []
  /\ MODE_CONNECTABLE < mode Sample.adapter_in_session
  /\ agent Sample.adapter_in_session = None
  /\ exists o : outcome,
       adapter_set_mode Sample.str2ba 1 Sample.env_ok
         (Sample.call ":1.9" "SetMode" [ArgString "connectable"])
         Sample.adapter_in_session = Some o
       /\ reply o = Some MethodReturn
       /\ mode (state o) <> MODE_CONNECTABLE.
Proof.
  split; [discriminate|]. split; [reflexivity|]. split; [reflexivity|].
  eexists. split; [vm_compute; reflexivity|].
  split; [reflexivity | discriminate].
Qed.

(** ** The mode commit *)

Ltac split_conditions :=
  repeat match goal with
         | |- context [if ?b then _ else _] => destruct b eqn:?
         end.

Ltac use_conditions :=
  repeat match goal with
         | H : ?b = true |- context [?b] => rewrite H
         | H : ?b = false |- context [?b] => rewrite H
         end.

(** [set_mode] always hands a reply back; an error reply leaves the
    adapter as it was, a success sets [mode] and nothing aborted before. *)
Lemma set_mode_commit_or_abort (e : hci_env) (msg : DBusMessage)
  (new_mode : Z) (a : adapter) :
  exists r : DBusReply,
    reply (set_mode e msg new_mode a) = Some r
    /\ (is_error r = true -> state (set_mode e msg new_mode a) = a)
    /\ (is_error r = false ->
        mode (state (set_mode e msg new_mode a)) = new_mode
        /\ existsb step_aborts (trace (set_mode e msg new_mode a)) = false)
    /\ (existsb step_aborts (trace (set_mode e msg new_mode a)) = true ->
        is_error r = true).
Proof.
  unfold set_mode, set_mode_down, set_mode_scan, set_mode_done, set_mode_fail.
  destruct (scan_for new_mode) as [scan|];
    [|eexists; split; [reflexivity|]; simpl; repeat split; intros; congruence].
  split_conditions; simpl;
    (eexists; split; [reflexivity|]); simpl; unfold step_aborts; simpl;
    use_conditions; simpl;
    repeat split; intros; try reflexivity; try congruence;
    repeat match goal with
           | H : negb _ = true |- _ => apply negb_true_iff in H
           | H : negb _ = false |- _ => apply negb_false_iff in H
           | H : _ && _ = false |- _ => apply andb_false_iff in H
           | H : _ || _ = false |- _ => apply orb_false_iff in H
           end;
    use_conditions; simpl; try reflexivity; try congruence.
Qed.

Lemma not_error_is_return (r : DBusReply) :
  is_error r = false -> r = MethodReturn.
Proof. destruct r; simpl; congruence. Qed.

Lemma confirm_mode_touches_no_hardware (str2ba : string -> bdaddr)
  (fuel : nat) (e : hci_env) (msg : DBusMessage) (name : string)
  (a : adapter) (o : outcome) :
  confirm_mode str2ba fuel e msg name a = Some o ->
  existsb step_failed (trace o) = false /\ mode (state o) = mode a.
Proof.
  unfold confirm_mode. intros H.
  destruct (agent a); [|inversion H; subst o; auto].
  destruct (str2mode str2ba fuel (read_on_mode e) (address a) name);
    [|discriminate].
  destruct (agent_ret e <? 0); inversion H; subst o; auto.
Qed.

Lemma step_aborts_failed (ef : effect) :
  step_aborts ef = true -> step_failed ef = true.
Proof.
  destruct ef; simpl; auto. intros H. now apply andb_true_iff in H.
Qed.

Lemma existsb_aborts_failed (t : list effect) :
  existsb step_aborts t = true -> existsb step_failed t = true.
Proof.
  rewrite !existsb_exists. intros (x & Hin & Hx).
  exists x. split; [assumption | now apply step_aborts_failed].
Qed.

Lemma sent_app (t1 t2 : list effect) : sent (t1 ++ t2) = sent t1 ++ sent t2.
Proof.
  induction t1 as [|ef t1 IH]; simpl; [reflexivity|].
  destruct ef; simpl; rewrite ?IH; reflexivity.
Qed.

Lemma set_mode_sends_nothing (e : hci_env) (msg : DBusMessage)
  (new_mode : Z) (a : adapter) :
  sent (trace (set_mode e msg new_mode a)) = [].
Proof.
  unfold set_mode, set_mode_down, set_mode_scan, set_mode_done, set_mode_fail.
  destruct (scan_for new_mode); [|reflexivity].
  split_conditions; reflexivity.
Qed.

Lemma existsb_step_aborts_app (t1 t2 : list effect) :
  existsb step_aborts t2 = false ->
  existsb step_aborts (t1 ++ t2) = existsb step_aborts t1.
Proof. intros H. now rewrite existsb_app, H, orb_false_r. Qed.

(** The commit run for the agent's answer: an aborted step sends the
    error to the held request and leaves the enacted mode. *)
Lemma confirm_mode_cb_abort (e : hci_env) (req : mode_req) (a : adapter) :
  let o := confirm_mode_cb e None req a in
  existsb step_aborts (trace o) = true ->
  (exists r, sent (trace o) = [(req_msg req, r)] /\ is_error r = true)
  /\ mode (state o) = mode a.
Proof.
  unfold confirm_mode_cb.
  destruct (set_mode_commit_or_abort e (req_msg req) (req_mode req) a)
    as (r & Hr & Herr & _ & Hab).
  pose proof (set_mode_sends_nothing e (req_msg req) (req_mode req) a) as Hs.
  rewrite Hr.
  assert (forall t, t = [] \/ t = confirm_cleanup req ->
                    existsb step_aborts ([Send (req_msg req) r] ++ t) = false
                    /\ sent ([Send (req_msg req) r] ++ t) = [(req_msg req, r)])
    as Htail.
  { intros t [->| ->]; [auto|].
    unfold confirm_cleanup. destruct (negb (req_id req =? 0)); auto. }
  destruct (g_slist_find_custom _ (req_msg req) find_session); simpl trace;
    simpl state.
  - destruct (Htail [] (or_introl eq_refl)) as [H1 H2].
    rewrite app_nil_r in H1, H2.
    intros H. rewrite existsb_step_aborts_app in H by exact H1.
    specialize (Hab H). rewrite sent_app, Hs, (Herr Hab). simpl.
    split; [exists r; auto | reflexivity].
  - destruct (Htail (confirm_cleanup req) (or_intror eq_refl)) as [H1 H2].
    intros H. rewrite existsb_step_aborts_app in H by exact H1.
    specialize (Hab H). rewrite sent_app, Hs, (Herr Hab).
    split; [exists r; split; [exact H2 | exact Hab] | reflexivity].
Qed.

(** C3, as the code has it: when a step of the commit aborts -- the
    command link cannot be opened, the power-up ioctl fails with an error
    other than EALREADY, the power-down ioctl, the limited-discoverable
    command or the sending of write-scan-enable fails, or the hardware
    answers a nonzero status -- CommitMode ([set_mode]) and SetMode
    ([adapter_set_mode]) answer with an error and the enacted mode is
    unchanged; and when the enacted mode changed, the answer is success,
    the mode is the one committed and no step aborted.  The same holds
    for the commit that follows the agent's confirmation, the error going
    to the held request. *)
Theorem mode_commit_is_atomic (str2ba : string -> bdaddr) (fuel : nat)
  (e : hci_env) (msg : DBusMessage) (a : adapter) :
  (forall new_mode : Z,
      let o := set_mode e msg new_mode a in
      (existsb step_aborts (trace o) = true ->
       (exists r, reply o = Some r /\ is_error r = true)
       /\ mode (state o) = mode a)
      /\ (mode (state o) <> mode a ->
          reply o = Some MethodReturn
          /\ mode (state o) = new_mode
          /\ existsb step_aborts (trace o) = false))
  /\ (forall o : outcome,
         adapter_set_mode str2ba fuel e msg a = Some o ->
         (existsb step_aborts (trace o) = true ->
          (exists r, reply o = Some r /\ is_error r = true)
          /\ mode (state o) = mode a)
         /\ (mode (state o) <> mode a ->
             reply o = Some MethodReturn
             /\ existsb step_aborts (trace o) = false))
  /\ (forall req : mode_req,
         let o := confirm_mode_cb e None req a in
         existsb step_aborts (trace o) = true ->
         (exists r, sent (trace o) = [(req_msg req, r)] /\ is_error r = true)
         /\ mode (state o) = mode a).
Proof.
  assert (forall (new_mode : Z) (b : adapter),
             let o := set_mode e msg new_mode b in
             (existsb step_aborts (trace o) = true ->
              (exists r, reply o = Some r /\ is_error r = true)
              /\ mode (state o) = mode b)
             /\ (mode (state o) <> mode b ->
                 reply o = Some MethodReturn
                 /\ mode (state o) = new_mode
                 /\ existsb step_aborts (trace o) = false)) as Hcommit.
  { intros new_mode b o.
    destruct (set_mode_commit_or_abort e msg new_mode b)
      as (r & Hr & Herr & Hok & Hab).
    fold o in Hr, Herr, Hok, Hab. split.
    - intros H. specialize (Hab H). split; [now exists r|].
      now rewrite (Herr Hab).
    - intros H. destruct (is_error r) eqn:E.
      + rewrite (Herr eq_refl) in H. contradiction.
      + rewrite Hr, (not_error_is_return r E).
        destruct (Hok eq_refl). auto. }
  split; [intros new_mode; apply Hcommit|].
  split; [|intros req; apply confirm_mode_cb_abort].
  intros o Hset. unfold adapter_set_mode in Hset.
  destruct (msg_args msg) as [|[name| |] rest];
    try (inversion Hset; subst o; simpl; split;
         [discriminate | intros H; contradiction]).
  destruct (str2mode str2ba fuel (read_on_mode e) (address a) name)
    as [g|] eqn:Hg; [|discriminate].
  simpl in Hset.
  destruct (g =? mode a).
  { inversion Hset; subst o; simpl; split;
      [discriminate | intros H; contradiction]. }
  destruct (negb (is_nil (sessions a)) && (g <? mode a)).
  - apply confirm_mode_touches_no_hardware in Hset.
    destruct Hset as [Hhw Hmode]. simpl in Hmode. split.
    + intros H. apply existsb_aborts_failed in H. congruence.
    + intros H. contradiction.
  - rewrite Hg in Hset. inversion Hset; subst o.
    destruct (Hcommit g (with_global_mode g a)) as [H1 H2].
    simpl in H1, H2. split; [exact H1|].
    intros H. destruct (H2 H) as (? & ? & ?). auto.
Qed.

Lemma mode_commit_is_atomic_witness :
  (exists r,
      reply (set_mode (Sample.env_up_fails ENODEV)
               (Sample.call ":1.9" "SetMode" [ArgString "discoverable"])
               MODE_DISCOVERABLE Sample.adapter_down) = Some r
      /\ is_error r = true)
  /\ mode (state (set_mode (Sample.env_up_fails ENODEV)
                    (Sample.call ":1.9" "SetMode" [ArgString "discoverable"])
                    MODE_DISCOVERABLE Sample.adapter_down))
     = mode Sample.adapter_down.
Proof.
  apply (proj1 (mode_commit_is_atomic Sample.str2ba 1
                  (Sample.env_up_fails ENODEV)
                  (Sample.call ":1.9" "SetMode" [ArgString "discoverable"])
                  Sample.adapter_down) MODE_DISCOVERABLE).
  reflexivity.
Defined.

(** C3 as stated fails: the power-up ioctl fails with EALREADY, and the
    commit goes on, answers success and assigns the requested mode. *)
Lemma power_up_already_up_commits :
  let o := set_mode (Sample.env_up_fails EALREADY)
             (Sample.call ":1.9" "SetMode" [ArgString "discoverable"])
             MODE_DISCOVERABLE Sample.adapter_down in
  existsb step_failed (trace o) = true
  /\ reply o = Some MethodReturn
  /\ mode (state o) = MODE_DISCOVERABLE
  /\ mode (state o) <> mode Sample.adapter_down.
Proof.
  vm_compute. repeat split; discriminate.
Qed.

(** ** The discoverable timeout *)

(** Where [set_mode] re-arms the timer at all -- inquiry scan already
    enabled, the mode changing to Discoverable or Limited -- it does so
    exactly when no session is active and the timeout is zero. *)
Lemma set_mode_rearms_iff (e : hci_env) (msg : DBusMessage) (new_mode : Z)
  (a : adapter) :
  0 <= dd e -> 0 <= limited_err e -> up a = true ->
  new_mode = MODE_DISCOVERABLE \/ new_mode = MODE_LIMITED ->
  scan_enable a = Z.lor SCAN_PAGE SCAN_INQUIRY ->
  new_mode <> mode a ->
  (existsb is_timeout_add (trace (set_mode e msg new_mode a)) = true
   <-> sessions a = [] /\ discov_timeout a = 0).
Proof.
  intros Hdd Hlim Hup Hnew Hscan Hneq.
  assert (scan_for new_mode = Some (Z.lor SCAN_PAGE SCAN_INQUIRY)) as Hs
      by (destruct Hnew; subst new_mode; reflexivity).
  unfold set_mode, set_mode_down, set_mode_scan. rewrite Hs, Hup, Hscan.
  apply Z.ltb_ge in Hdd, Hlim. rewrite Hdd, Hlim.
  apply Z.eqb_neq in Hneq. rewrite Hneq.
  unfold set_mode_done. cbn.
  destruct (sessions a) as [|r l]; cbn.
  - destruct (Z.eqb_spec (discov_timeout a) 0) as [Hz|Hz];
      destruct (timeout_id a =? 0); cbn;
      split; try tauto; try congruence; try (intros [_ H]; congruence).
  - destruct (timeout_id a =? 0); cbn;
      split; try congruence; intros [H _]; congruence.
Qed.

(** C4, the code at the failing input: on an adapter in Limited mode
    with no session, SetMode("discoverable") arms no timer when the
    configured timeout is 180 seconds and arms one, of 0 ms, when the
    configured timeout is 0. *)
Theorem discoverable_timer_armed_only_for_zero_timeout :
  (exists o : outcome,
      adapter_set_mode Sample.str2ba 1 Sample.env_ok
        (Sample.call ":1.9" "SetMode" [ArgString "discoverable"])
        (Sample.adapter_limited 180) = Some o
      /\ reply o = Some MethodReturn
      /\ mode (state o) = MODE_DISCOVERABLE
      /\ sessions (state o) = []
      /\ existsb is_timeout_add (trace o) = false
      /\ timeout_id (state o) = 0)
  /\ (exists o : outcome,
         adapter_set_mode Sample.str2ba 1 Sample.env_ok
           (Sample.call ":1.9" "SetMode" [ArgString "discoverable"])
           (Sample.adapter_limited 0) = Some o
         /\ reply o = Some MethodReturn
         /\ mode (state o) = MODE_DISCOVERABLE
         /\ In (TimeoutAdd 0 41) (trace o)
         /\ timeout_id (state o) = 41).
Proof.
  split; eexists; (split; [vm_compute; reflexivity|]); simpl; intuition.
Qed.

(** ** DiscoverDevices *)

Lemma pending_remote_name_cancel_frame (e : hci_env) (a : adapter) :
  let '(_, a1, t1) := pending_remote_name_cancel e a in
  bonding a1 = bonding a
  /\ discov_requestor a1 = discov_requestor a
  /\ existsb is_inquiry t1 = false.
Proof.
  unfold pending_remote_name_cancel.
  destruct (g_slist_find_custom (found_devices a) NAME_REQUESTED
                                found_device_cmp); [|auto].
  destruct (rn_dd e <? 0); simpl; auto.
Qed.

(** C5, as the code has it: a DiscoverDevices call on an adapter that is
    down is answered NotReady, with no external call made and the adapter
    untouched; on an adapter that is up, a call that carries arguments is
    answered InvalidArguments, and a call without arguments InProgress
    when a standard discovery is active, and when a bonding is in flight
    (no inquiry sent, no requestor recorded).  With neither of the two,
    whether or not a periodic discovery is active, the call is never
    answered InProgress: the command link is opened and, once it is open,
    the inquiry command is sent; when the command is sent and the hardware
    answers it with status 0 the call succeeds and the caller is recorded
    as requestor; when the link does not open, the command is not sent or
    the status is not 0, the call is answered that failure and no
    requestor is recorded. *)
Theorem discover_devices_guards (e : hci_env) (msg : DBusMessage)
  (a : adapter) :
  let o := adapter_discover_devices e msg a in
  (up a = false -> o = mkOut (Some NotReady) a [])
  /\ (up a = true -> msg_args msg <> [] ->
      o = mkOut (Some InvalidArguments) a [])
  /\ (up a = true -> msg_args msg = [] -> discov_active a = true ->
      o = mkOut (Some (InProgress "Discover in progress")) a [])
  /\ (up a = true -> msg_args msg = [] -> discov_active a = false ->
      bonding a <> None ->
      reply o = Some (InProgress "Bonding in progress")
      /\ discov_requestor (state o) = discov_requestor a
      /\ existsb is_inquiry (trace o) = false)
  /\ (up a = true -> msg_args msg = [] -> discov_active a = false ->
      bonding a = None ->
      (forall s, reply o <> Some (InProgress s))
      /\ In (HciOpenDev (dd e)) (trace o)
      /\ (dd e < 0 ->
          reply o = Some NoSuchAdapter
          /\ discov_requestor (state o) = discov_requestor a
          /\ existsb is_inquiry (trace o) = false)
      /\ (0 <= dd e ->
          In (Inquiry (req_ret e) (req_errno e) (req_status e)) (trace o)
          /\ (req_ret e < 0 ->
              reply o = Some (Failed (Errno (req_errno e)))
              /\ discov_requestor (state o) = discov_requestor a)
          /\ (0 <= req_ret e -> req_status e <> 0 ->
              reply o = Some (Failed (BtError (req_status e)))
              /\ discov_requestor (state o) = discov_requestor a)
          /\ (0 <= req_ret e -> req_status e = 0 ->
              reply o = Some MethodReturn
              /\ discov_requestor (state o) = Some (msg_sender msg)))).
Proof.
  intros o; subst o. unfold adapter_discover_devices.
  split; [intros ->; reflexivity|].
  split.
  { intros -> Hargs. destruct (msg_args msg); [contradiction | reflexivity]. }
  split; [intros -> -> ->; reflexivity|].
  pose proof (pending_remote_name_cancel_frame e a) as Hframe.
  destruct (pending_remote_name_cancel e a) as [[err a1] t1].
  destruct Hframe as (Hb & Hr & Hi).
  split.
  - intros -> -> -> Hbond. simpl. rewrite Hb.
    destruct (bonding a); [|contradiction]. simpl. auto.
  - intros -> -> -> Hbond. simpl. rewrite Hb, Hbond. simpl.
    destruct (Z.ltb_spec (dd e) 0) as [Hdd|Hdd].
    { simpl. split; [discriminate|].
      split; [apply in_or_app; right; left; reflexivity|].
      split; [|intros; lia].
      intros _. rewrite existsb_app, Hi. auto. }
    destruct (Z.ltb_spec (req_ret e) 0) as [Hret|Hret].
    { simpl. split; [discriminate|].
      split; [rewrite <- !app_assoc; apply in_or_app; right; left; reflexivity|].
      split; [intros; lia|]. intros _.
      split; [rewrite <- !app_assoc; apply in_or_app; right; right; left;
              reflexivity|].
      split; [auto|]. split; intros; lia. }
    destruct (Z.eqb_spec (req_status e) 0) as [Hst|Hst]; simpl.
    + split; [discriminate|].
      split; [rewrite <- !app_assoc; apply in_or_app; right; left; reflexivity|].
      split; [intros; lia|]. intros _.
      split; [rewrite <- !app_assoc; apply in_or_app; right; right; left;
              reflexivity|].
      split; [intros; lia|]. split; [intros; contradiction|]. auto.
    + split; [discriminate|].
      split; [rewrite <- !app_assoc; apply in_or_app; right; left; reflexivity|].
      split; [intros; lia|]. intros _.
      split; [rewrite <- !app_assoc; apply in_or_app; right; right; left;
              reflexivity|].
      split; [intros; lia|]. split; [auto|]. intros; contradiction.
Qed.

Lemma discover_devices_guards_witness :
  let o := adapter_discover_devices Sample.env_ok
             (Sample.call ":1.9" "DiscoverDevices" [])
             Sample.adapter_periodic in
  pdiscov_active Sample.adapter_periodic = true
  /\ In (Inquiry 0 0 0) (trace o)
  /\ reply o = Some MethodReturn
  /\ discov_requestor (state o) = Some ":1.9".
Proof.
  pose proof (discover_devices_guards Sample.env_ok
                (Sample.call ":1.9" "DiscoverDevices" [])
                Sample.adapter_periodic) as H.
  cbv zeta in H.
  destruct H as (_ & _ & _ & _ & H).
  destruct (H eq_refl eq_refl eq_refl eq_refl) as (_ & _ & _ & Hopen).
  destruct (Hopen ltac:(vm_compute; discriminate)) as (Hinq & _ & _ & Hok).
  destruct (Hok ltac:(vm_compute; discriminate) eq_refl) as (Hreply & Hreq).
  intros o. split; [reflexivity|]. split; [exact Hinq|].
  split; [exact Hreply | exact Hreq].
Defined.

(** C5 as stated fails: with a periodic discovery active (and neither a
    standard discovery nor a bonding), the call is not rejected: the
    inquiry is sent and the answer is success.  And a call that carries
    an argument while a standard discovery is active is answered
    InvalidArguments, not InProgress. *)
Lemma discover_devices_during_periodic :
  (let o := adapter_discover_devices Sample.env_ok
              (Sample.call ":1.9" "DiscoverDevices" [])
              Sample.adapter_periodic in
   pdiscov_active Sample.adapter_periodic = true
   /\ reply o = Some MethodReturn
   /\ existsb is_inquiry (trace o) = true
   /\ discov_requestor (state o) = Some ":1.9")
  /\ (let a := Sample.adapter_discovering in
      discov_active a = true
      /\ reply (adapter_discover_devices Sample.env_ok
                  (Sample.call ":1.9" "DiscoverDevices" [ArgBoolean true]) a)
         = Some InvalidArguments).
Proof.
  vm_compute. repeat split.
Qed.

(** ** The raw link of a bonding *)

Lemma strcmp_zero_iff (s1 s2 : string) :
  strcmp s1 s2 = 0 <-> cstr s1 = cstr s2.
Proof.
  revert s2; induction s1 as [|c1 r1 IH]; intros [|c2 r2]; simpl.
  - tauto.
  - destruct (Z.eqb_spec (code c2) 0) as [Hz|Hz];
      split; try reflexivity; try discriminate; lia.
  - destruct (Z.eqb_spec (code c1) 0) as [Hz|Hz];
      split; try reflexivity; try discriminate; lia.
  - destruct (Z.eqb_spec (code c1 - code c2) 0) as [Hd|Hd].
    + assert (c1 = c2) as -> by (apply code_inj; lia).
      destruct (Z.eqb_spec (code c2) 0) as [Hz|Hz]; [tauto|].
      rewrite IH. split; [congruence | intros H; now inversion H].
    + split; [contradiction | intros H; exfalso].
      destruct (Z.eqb_spec (code c1) 0) as [Hz1|Hz1];
        destruct (Z.eqb_spec (code c2) 0) as [Hz2|Hz2];
        try discriminate; [lia|].
      inversion H as [[Hc Hr]]. subst c2. lia.
Qed.

Lemma bonding_failed_sent (ba2str : bdaddr -> string)
  (b : bonding_request_info) (a : adapter) (t : list effect) :
  sent (trace (bonding_failed ba2str b a t)) = sent t
  /\ bonding (state (bonding_failed ba2str b a t)) = None.
Proof.
  unfold bonding_failed, remove_pending_device.
  destruct (adapter_find_device a (ba2str (b_bdaddr b))) as [d|];
    [destruct (dev_temporary d)|];
    simpl; rewrite !sent_app; simpl; rewrite ?app_nil_r; auto.
Qed.

(** C6, as the code has it: a bonding is in flight and its raw link
    reports hangup or error.  When the link reports an invalid descriptor
    as well, the requester is answered AuthenticationCanceled, whether or
    not the authentication request had been issued.  Otherwise, if the
    authentication request had not been issued the requester is answered
    ConnectionAttemptFailed; if it had, the requester is answered the
    authentication failure built from the status recorded for the
    bonding, or from the generic authentication-failure status when none
    was recorded.  In every case that one reply is all that is sent, and
    the bonding is gone. *)
Theorem bonding_hangup_reply (ba2str : bdaddr -> string) (e : hci_env)
  (cond : Z) (a : adapter) (b : bonding_request_info) :
  bonding a = Some b ->
  Z.land cond (Z.lor G_IO_HUP G_IO_ERR) <> 0 ->
  (Z.land cond G_IO_NVAL <> 0 ->
   sent (trace (create_bonding_conn_complete ba2str e cond a))
   = [(b_msg b, AuthenticationCanceled)])
  /\ (Z.land cond G_IO_NVAL = 0 -> b_auth_active b = false ->
      sent (trace (create_bonding_conn_complete ba2str e cond a))
      = [(b_msg b, ConnectionAttemptFailed ENETDOWN)])
  /\ (Z.land cond G_IO_NVAL = 0 -> b_auth_active b = true ->
      b_hci_status b <> 0 ->
      sent (trace (create_bonding_conn_complete ba2str e cond a))
      = [(b_msg b, AuthenticationReturn (b_hci_status b))])
  /\ (Z.land cond G_IO_NVAL = 0 -> b_auth_active b = true ->
      b_hci_status b = 0 ->
      sent (trace (create_bonding_conn_complete ba2str e cond a))
      = [(b_msg b, AuthenticationReturn HCI_AUTHENTICATION_FAILURE)])
  /\ bonding (state (create_bonding_conn_complete ba2str e cond a)) = None.
Proof.
  intros Hb Hhup. unfold create_bonding_conn_complete. rewrite Hb.
  apply Z.eqb_neq in Hhup. rewrite Hhup.
  destruct (Z.eqb_spec (Z.land cond G_IO_NVAL) 0) as [Hnval|Hnval]; simpl.
  - split; [intros; contradiction|].
    destruct (b_auth_active b); simpl.
    + destruct (bonding_failed_sent ba2str b a
                  (reply_authentication_failure b)) as [Hs Hn].
      rewrite Hs, Hn. unfold reply_authentication_failure.
      repeat split; try discriminate.
      * intros _ _ Hst. apply Z.eqb_neq in Hst. now rewrite Hst.
      * intros _ _ Hst. now rewrite Hst.
    + destruct (bonding_failed_sent ba2str b a
                  [Send (b_msg b) (ConnectionAttemptFailed ENETDOWN)])
        as [Hs Hn].
      rewrite Hs, Hn. repeat split; discriminate.
  - unfold bonding_cleanup. simpl.
    repeat split; intros; contradiction.
Qed.

Lemma bonding_hangup_reply_witness :
  sent (trace (create_bonding_conn_complete Sample.ba2str Sample.env_ok
                 G_IO_HUP Sample.adapter_bonding))
  = [(b_msg Sample.bonding0, ConnectionAttemptFailed ENETDOWN)]
  /\ sent (trace (create_bonding_conn_complete Sample.ba2str Sample.env_ok
                    (Z.lor G_IO_ERR G_IO_NVAL) Sample.adapter_bonding))
     = [(b_msg Sample.bonding0, AuthenticationCanceled)].
Proof.
  split.
  - apply (proj1 (proj2 (bonding_hangup_reply Sample.ba2str Sample.env_ok
                    G_IO_HUP Sample.adapter_bonding Sample.bonding0
                    eq_refl ltac:(vm_compute; discriminate)))); reflexivity.
  - apply (proj1 (bonding_hangup_reply Sample.ba2str Sample.env_ok
                    (Z.lor G_IO_ERR G_IO_NVAL) Sample.adapter_bonding
                    Sample.bonding0
                    eq_refl ltac:(vm_compute; discriminate))).
    vm_compute; discriminate.
Defined.

(** C6 as stated fails: the link reports hangup together with an invalid
    descriptor, the authentication request not yet issued; the requester
    is answered AuthenticationCanceled, not ConnectionAttemptFailed. *)
Lemma bonding_hangup_with_invalid_descriptor :
  let a := Sample.adapter_bonding in
  let cond := Z.lor G_IO_HUP G_IO_NVAL in
  bonding a = Some Sample.bonding0
  /\ b_auth_active Sample.bonding0 = false
  /\ Z.land cond G_IO_HUP <> 0
  /\ sent (trace (create_bonding_conn_complete Sample.ba2str Sample.env_ok
                    cond a))
     = [(b_msg Sample.bonding0, AuthenticationCanceled)]
  /\ AuthenticationCanceled <> ConnectionAttemptFailed ENETDOWN.
Proof.
  vm_compute. repeat split; discriminate.
Qed.

(** A socket error read from a link that became writable is answered the
    same way, with the error read in place of ENETDOWN. *)
Lemma bonding_socket_error_reply (ba2str : bdaddr -> string) (e : hci_env)
  (cond : Z) (a : adapter) (b : bonding_request_info) :
  bonding a = Some b ->
  Z.land cond G_IO_NVAL = 0 ->
  Z.land cond (Z.lor G_IO_HUP G_IO_ERR) = 0 ->
  0 <= so_ret e -> so_error e <> 0 ->
  sent (trace (create_bonding_conn_complete ba2str e cond a))
  = if b_auth_active b
    then [(b_msg b,
           AuthenticationReturn (if b_hci_status b =? 0
                                 then HCI_AUTHENTICATION_FAILURE
                                 else b_hci_status b))]
    else [(b_msg b, ConnectionAttemptFailed (so_error e))].
Proof.
  intros Hb Hnval Hhup Hret Herr. unfold create_bonding_conn_complete.
  rewrite Hb, Hnval, Hhup. simpl.
  apply Z.ltb_ge in Hret. rewrite Hret.
  apply Z.eqb_neq in Herr. rewrite Herr. simpl.
  destruct (b_auth_active b);
    match goal with
    | |- context [bonding_failed ba2str b a ?t] =>
        rewrite (proj1 (bonding_failed_sent ba2str b a t))
    end; [|reflexivity].
  unfold reply_authentication_failure. simpl.
  now destruct (b_hci_status b =? 0).
Qed.

(** ** CancelBondingProcess *)

(** C7, as the code has it: on an adapter that is down the call is
    answered NotReady; on an adapter that is up, a call whose arguments
    do not start with a string, or whose string is not a well-formed
    address, is answered InvalidArguments; nothing else is done in either
    case.  On an adapter that is up, for a call that carries a well-formed
    address: with no bonding in flight, or one for another address, the
    answer is the not-in-progress error; else, from a sender other than
    the requestor of the bonding, NotAuthorized; else the cancel flag is
    set, and if the PIN request for the address was already replied to
    the channel of the bonding is closed and the answer is
    NotAuthorized. *)
Theorem cancel_bonding_guards (str2ba : string -> bdaddr)
  (check_address : string -> Z) (e : hci_env) (msg : DBusMessage)
  (a : adapter) :
  (up a = false ->
   adapter_cancel_bonding str2ba check_address e msg a
   = mkOut (Some NotReady) a [])
  /\ (up a = true ->
      (forall addr rest, msg_args msg <> ArgString addr :: rest) ->
      adapter_cancel_bonding str2ba check_address e msg a
      = mkOut (Some InvalidArguments) a [])
  /\ (forall addr rest,
         up a = true -> msg_args msg = ArgString addr :: rest ->
         check_address addr < 0 ->
         adapter_cancel_bonding str2ba check_address e msg a
         = mkOut (Some InvalidArguments) a [])
  /\ (forall addr rest,
         up a = true -> msg_args msg = ArgString addr :: rest ->
         0 <= check_address addr ->
         (bonding a = None ->
          adapter_cancel_bonding str2ba check_address e msg a
          = mkOut (Some BondingNotInProgress) a [])
         /\ (forall b, bonding a = Some b -> b_bdaddr b <> str2ba addr ->
             adapter_cancel_bonding str2ba check_address e msg a
             = mkOut (Some BondingNotInProgress) a [])
         /\ (forall b, bonding a = Some b -> b_bdaddr b = str2ba addr ->
             cstr (msg_sender (b_msg b)) <> cstr (msg_sender msg) ->
             adapter_cancel_bonding str2ba check_address e msg a
             = mkOut (Some NotAuthorized) a [])
         /\ (forall b p, bonding a = Some b -> b_bdaddr b = str2ba addr ->
             cstr (msg_sender (b_msg b)) = cstr (msg_sender msg) ->
             g_slist_find_custom (pin_reqs a) (str2ba addr) pin_req_cmp
             = Some p ->
             pin_replied p = true ->
             adapter_cancel_bonding str2ba check_address e msg a
             = mkOut (Some NotAuthorized)
                     (with_bonding
                        (Some (bonding_close_io (bonding_set_cancel b))) a)
                     [IoChannelClose])).
Proof.
  unfold adapter_cancel_bonding.
  split; [intros ->; reflexivity|].
  split.
  { intros -> Hargs. simpl.
    destruct (msg_args msg) as [|[addr| |] rest]; try reflexivity.
    now destruct (Hargs addr rest). }
  split.
  { intros addr rest -> -> Hchk. simpl.
    apply Z.ltb_lt in Hchk. now rewrite Hchk. }
  intros addr rest Hup Hargs Hchk.
  rewrite Hup, Hargs. simpl.
  apply Z.ltb_ge in Hchk. rewrite Hchk.
  split; [intros ->; reflexivity|].
  split.
  { intros b -> Hne. apply Z.eqb_neq in Hne. now rewrite Hne. }
  split.
  { intros b -> Heq Hsender. rewrite Heq, Z.eqb_refl. simpl.
    destruct (Z.eqb_spec (strcmp (msg_sender (b_msg b)) (msg_sender msg)) 0)
      as [H0|H0]; [|reflexivity].
    apply strcmp_zero_iff in H0. contradiction. }
  intros b p -> Heq Hsender Hfind Hrep.
  rewrite Heq, Z.eqb_refl. simpl.
  apply strcmp_zero_iff in Hsender. rewrite Hsender. simpl.
  rewrite Hfind, Hrep. reflexivity.
Qed.

Lemma cancel_bonding_guards_witness :
  adapter_cancel_bonding Sample.str2ba Sample.check_address Sample.env_ok
    (Sample.call ":1.7" "CancelBondingProcess" [ArgString Sample.peer])
    Sample.adapter_bonding
  = mkOut (Some NotAuthorized)
          (with_bonding
             (Some (bonding_close_io (bonding_set_cancel Sample.bonding0)))
             Sample.adapter_bonding)
          [IoChannelClose]
  /\ adapter_cancel_bonding Sample.str2ba Sample.check_address Sample.env_ok
       (Sample.call ":1.7" "CancelBondingProcess" [ArgString Sample.peer])
       Sample.adapter_down
     = mkOut (Some NotReady) Sample.adapter_down []
  /\ adapter_cancel_bonding Sample.str2ba Sample.check_address Sample.env_ok
       (Sample.call ":1.7" "CancelBondingProcess" [])
       Sample.adapter_bonding
     = mkOut (Some InvalidArguments) Sample.adapter_bonding []
  /\ adapter_cancel_bonding Sample.str2ba Sample.check_address Sample.env_ok
       (Sample.call ":1.7" "CancelBondingProcess" [ArgString "no address"])
       Sample.adapter_bonding
     = mkOut (Some InvalidArguments) Sample.adapter_bonding [].
Proof.
  split; [|split; [|split]].
  - destruct (cancel_bonding_guards Sample.str2ba Sample.check_address
                Sample.env_ok
                (Sample.call ":1.7" "CancelBondingProcess"
                             [ArgString Sample.peer])
                Sample.adapter_bonding) as (_ & _ & _ & H).
    destruct (H Sample.peer [] eq_refl eq_refl
                ltac:(vm_compute; discriminate)) as (_ & _ & _ & Hpin).
    apply (Hpin Sample.bonding0 (mkPin (Sample.str2ba Sample.peer) true));
      reflexivity.
  - apply (proj1 (cancel_bonding_guards Sample.str2ba Sample.check_address
                    Sample.env_ok
                    (Sample.call ":1.7" "CancelBondingProcess"
                                 [ArgString Sample.peer])
                    Sample.adapter_down)).
    reflexivity.
  - apply (proj1 (proj2
             (cancel_bonding_guards Sample.str2ba Sample.check_address
                Sample.env_ok
                (Sample.call ":1.7" "CancelBondingProcess" [])
                Sample.adapter_bonding))); [reflexivity|].
    intros addr rest; discriminate.
  - apply (proj1 (proj2 (proj2
             (cancel_bonding_guards Sample.str2ba Sample.check_address
                Sample.env_ok
                (Sample.call ":1.7" "CancelBondingProcess"
                             [ArgString "no address"])
                Sample.adapter_bonding))) "no address" []);
      [reflexivity | reflexivity | vm_compute; reflexivity].
Defined.

(** C7 as stated fails: on an adapter that is down, a call with no
    bonding in flight is answered NotReady, and on an adapter that is up a
    call with no bonding in flight and a malformed address, or no address
    at all, InvalidArguments; none is the not-in-progress error. *)
Lemma cancel_bonding_on_down_adapter :
  (bonding Sample.adapter_down = None
   /\ reply (adapter_cancel_bonding Sample.str2ba Sample.check_address
               Sample.env_ok
               (Sample.call ":1.7" "CancelBondingProcess"
                            [ArgString Sample.peer])
               Sample.adapter_down) = Some NotReady)
  /\ (bonding Sample.adapter0 = None
      /\ reply (adapter_cancel_bonding Sample.str2ba Sample.check_address
                  Sample.env_ok
                  (Sample.call ":1.7" "CancelBondingProcess"
                               [ArgString "no address"])
                  Sample.adapter0) = Some InvalidArguments
      /\ reply (adapter_cancel_bonding Sample.str2ba Sample.check_address
                  Sample.env_ok
                  (Sample.call ":1.7" "CancelBondingProcess" [])
                  Sample.adapter0) = Some InvalidArguments)
  /\ NotReady <> BondingNotInProgress
  /\ InvalidArguments <> BondingNotInProgress.
Proof.
  vm_compute. repeat split; discriminate.
Qed.

(** ** The audio device *)

Import Audio.

Lemma audio_state_eqb_eq (x y : audio_state_t) :
  audio_state_eqb x y = true <-> x = y.
Proof. destruct x, y; simpl; split; congruence. Qed.

(** C8, as the code has it: Connect while Connecting answers InProgress
    and while Connected AlreadyConnected, the device untouched.  From
    Disconnected there are three ways out: the state was driven to
    Connecting before the call returns, the request is stored and the
    answer deferred; or the answer is the failure "Connect Failed" and
    the state is not Connecting; or, the device having a sink and no
    AVDTP session being available, the answer is the failure "Failed to
    get AVDTP session" and the state is still Disconnected.  Connect
    never answers success itself. *)
Theorem dev_connect_outcomes (session : bool) (cbs : list callback)
  (msg : DBusMessage) (d : audio_device) :
  let r := fst (fst (dev_connect session cbs msg d)) in
  let d' := snd (fst (dev_connect session cbs msg d)) in
  (state (priv d) = AUDIO_STATE_CONNECTING ->
   r = Some ErrInProgress /\ d' = d)
  /\ (state (priv d) = AUDIO_STATE_CONNECTED ->
      r = Some ErrAlreadyConnected /\ d' = d)
  /\ (state (priv d) = AUDIO_STATE_DISCONNECTED ->
      (r = None /\ state (priv d') = AUDIO_STATE_CONNECTING
       /\ conn_req (priv d') = Some msg)
      \/ (r = Some (ErrFailed "Connect Failed")
          /\ state (priv d') <> AUDIO_STATE_CONNECTING)
      \/ (r = Some (ErrFailed "Failed to get AVDTP session")
          /\ sink d = true /\ session = false
          /\ state (priv d') = AUDIO_STATE_DISCONNECTED))
  /\ r <> Some ReplyOk.
Proof.
  unfold dev_connect.
  destruct (state (priv d)) eqn:Hst; simpl;
    try (repeat split; intros; try discriminate; auto; fail).
  assert (forall (d1 : audio_device) (t1 : list audio_effect),
             let res :=
               if negb (audio_state_eqb (state (priv d1))
                                        AUDIO_STATE_CONNECTING)
               then (Some (ErrFailed "Connect Failed"), d1, t1)
               else (None,
                     with_priv (with_conn_req (Some msg) (priv d1)) d1, t1) in
             ((fst (fst res) = None
               /\ state (priv (snd (fst res))) = AUDIO_STATE_CONNECTING
               /\ conn_req (priv (snd (fst res))) = Some msg)
              \/ (fst (fst res) = Some (ErrFailed "Connect Failed")
                  /\ state (priv (snd (fst res))) <> AUDIO_STATE_CONNECTING))
             /\ fst (fst res) <> Some ReplyOk) as Hlast.
  { intros d1 t1.
    destruct (audio_state_eqb (state (priv d1)) AUDIO_STATE_CONNECTING)
      eqn:E; simpl.
    - apply audio_state_eqb_eq in E. split; [left; auto | discriminate].
    - split; [right; split; [reflexivity|] | discriminate].
      intros H. apply audio_state_eqb_eq in H. congruence. }
  split; [discriminate|]. split; [discriminate|].
  destruct (sink d) eqn:Hsink; [destruct session|].
  - destruct (fire_all cbs (with_auto_connect true d)) as [d1 t1].
    destruct (Hlast d1 (SinkSetupStream :: t1)) as [H1 H2]. cbv zeta in H1, H2.
    split; [intros _; destruct H1 as [H1|H1]; auto | exact H2].
  - simpl. split; [|discriminate].
    intros _. right. right. auto.
  - destruct (Hlast (with_auto_connect true d) []) as [H1 H2].
    cbv zeta in H1, H2.
    split; [intros _; destruct H1 as [H1|H1]; auto | exact H2].
Qed.

Lemma dev_connect_outcomes_witness :
  fst (fst (dev_connect true [] AudioSample.connect_call
              (with_priv (with_state AUDIO_STATE_CONNECTING
                            (priv AudioSample.device0))
                         AudioSample.device0)))
  = Some ErrInProgress.
Proof.
  apply (proj1 (dev_connect_outcomes true [] AudioSample.connect_call
                  (with_priv (with_state AUDIO_STATE_CONNECTING
                                (priv AudioSample.device0))
                             AudioSample.device0))).
  reflexivity.
Defined.

(** C8 as stated fails: from Disconnected, with no AVDTP session to be
    had, Connect neither reaches Connecting nor answers "Connect Failed":
    the answer is the failure "Failed to get AVDTP session". *)
Lemma dev_connect_without_session :
  let res := dev_connect false [] AudioSample.connect_call
               AudioSample.device0 in
  state (priv AudioSample.device0) = AUDIO_STATE_DISCONNECTED
  /\ fst (fst res) = Some (ErrFailed "Failed to get AVDTP session")
  /\ fst (fst res) <> Some (ErrFailed "Connect Failed")
  /\ state (priv (snd (fst res))) <> AUDIO_STATE_CONNECTING
  /\ conn_req (priv (snd (fst res))) = None.
Proof.
  vm_compute. repeat split; discriminate.
Qed.

(** ** The device-level disconnect watch *)

Lemma device_set_state_state (s : audio_state_t) (d : audio_device) :
  state (priv (fst (device_set_state s d))) = s.
Proof.
  unfold device_set_state.
  destruct (set_state_watch s d) as [d1 t1].
  destruct (audio_state_eqb (state (priv d1)) s) eqn:E.
  - now apply audio_state_eqb_eq in E.
  - destruct s; cbn; destruct (dc_req (priv d1)); cbn;
      destruct (conn_req (priv d1)); reflexivity.
Qed.

Lemma device_set_state_watches (s : audio_state_t) (d : audio_device) :
  btd_dev (fst (device_set_state s d)) = btd_dev (fst (set_state_watch s d))
  /\ dc_id (priv (fst (device_set_state s d)))
     = dc_id (priv (fst (set_state_watch s d))).
Proof.
  unfold device_set_state.
  destruct (set_state_watch s d) as [d1 t1].
  destruct (audio_state_eqb (state (priv d1)) s); [auto|].
  destruct s; cbn; destruct (dc_req (priv d1)); cbn;
    destruct (conn_req (priv d1)); auto.
Qed.

(** Along the lifecycle order one call keeps the watch unique: it is
    registered on entering Connecting, kept in Connected, removed on
    entering Disconnected. *)
Lemma device_set_state_one_watch (s : audio_state_t) (d : audio_device) :
  one_watch d ->
  in_lifecycle (state (priv d)) s = true ->
  one_watch (fst (device_set_state s d)).
Proof.
  unfold one_watch. intros [Hseq Hinv] Hlife.
  rewrite device_set_state_state.
  destruct (device_set_state_watches s d) as [Hb Hid]. rewrite Hb, Hid.
  destruct (state (priv d)), s; try discriminate; simpl;
    destruct Hinv as [Hw Hdc]; rewrite ?Hdc; simpl.
  - auto.
  - rewrite Hw. simpl. split; [lia | split; [reflexivity | lia]].
  - apply Z.eqb_neq in Hdc. rewrite Hdc. simpl. rewrite Hw. simpl.
    destruct (Z.eq_dec (dc_id (priv d)) (dc_id (priv d)));
      [auto | contradiction].
  - auto.
  - apply Z.eqb_neq in Hdc. rewrite Hdc. simpl. rewrite Hw. simpl.
    destruct (Z.eq_dec (dc_id (priv d)) (dc_id (priv d)));
      [auto | contradiction].
  - auto.
Qed.

Lemma set_states_one_watch (l : list audio_state_t) (d : audio_device) :
  one_watch d ->
  all_in_lifecycle (state (priv d)) l = true ->
  one_watch (set_states l d).
Proof.
  revert d; induction l as [|s l IH]; intros d Hinv Hall; simpl;
    [assumption|].
  simpl in Hall. apply andb_true_iff in Hall. destruct Hall as [H1 H2].
  apply IH.
  - now apply device_set_state_one_watch.
  - now rewrite device_set_state_state.
Qed.

(** C9, the code at the failing input: setting Connecting twice on a
    fresh device registers two watches and keeps the handle of the
    second only; a following Disconnected removes that one and the first
    stays registered.  The second call makes no other call than the
    registration.  And a device set to Connected straight from
    Disconnected holds no watch. *)
Theorem connecting_twice_registers_two_watches :
  let d2 := set_states [AUDIO_STATE_CONNECTING; AUDIO_STATE_CONNECTING]
                       AudioSample.device0 in
  let d3 := set_states [AUDIO_STATE_CONNECTING; AUDIO_STATE_CONNECTING;
                        AUDIO_STATE_DISCONNECTED] AudioSample.device0 in
  let d1 := set_states [AUDIO_STATE_CONNECTED] AudioSample.device0 in
  (state (priv d2) = AUDIO_STATE_CONNECTING
   /\ watches (btd_dev d2) = [1; 2]
   /\ dc_id (priv d2) = 2)
  /\ (state (priv d3) = AUDIO_STATE_DISCONNECTED
      /\ watches (btd_dev d3) = [1]
      /\ dc_id (priv d3) = 0)
  /\ snd (device_set_state AUDIO_STATE_CONNECTING
             (set_states [AUDIO_STATE_CONNECTING] AudioSample.device0))
     = [WatchAdded 2]
  /\ (state (priv d1) = AUDIO_STATE_CONNECTED
      /\ watches (btd_dev d1) = []
      /\ dc_id (priv d1) = 0).
Proof.
  vm_compute. repeat split.
Qed.

(** * Further properties *)

Import Adapter.

(** ** The command link *)


(** X1: the mode commit keeps the discipline of the command link: the ioctls
    and HCI commands go to a link that was opened, and the link is closed
    before [set_mode] returns, on the error paths as on success. *)
Theorem set_mode_link_protocol (e : hci_env) (msg : DBusMessage)
  (new_mode : Z) (a : adapter) :
  link_protocol false (trace (set_mode e msg new_mode a)) = true.
Proof.
  unfold set_mode, set_mode_down, set_mode_scan, set_mode_done, set_mode_fail.
  destruct (scan_for new_mode); [|reflexivity].
  split_conditions; simpl; use_conditions; reflexivity.
Qed.

(** ** More on the mode commit *)

Lemma set_mode_frame (e : hci_env) (msg : DBusMessage) (new_mode : Z)
  (a : adapter) :
  global_mode (state (set_mode e msg new_mode a)) = global_mode a
  /\ address (state (set_mode e msg new_mode a)) = address a.
Proof.
  unfold set_mode, set_mode_down, set_mode_scan, set_mode_done, set_mode_fail.
  destruct (scan_for new_mode); [|split; reflexivity].
  split_conditions; split; reflexivity.
Qed.

(** X2: [set_mode] writes the mode to the store exactly when it answers
    success, under the name of the committed mode, and whatever happens it
    leaves the baseline, the sessions, the agent and the recorded
    scan-enable bits alone. *)
Theorem set_mode_persists_iff_commits (e : hci_env) (msg : DBusMessage)
  (new_mode : Z) (a : adapter) :
  let o := set_mode e msg new_mode a in
  (existsb is_write_device_mode (trace o) = true
   <-> reply o = Some MethodReturn)
  /\ (reply o = Some MethodReturn ->
      In (WriteDeviceMode (mode2str new_mode)) (trace o))
  /\ global_mode (state o) = global_mode a
  /\ sessions (state o) = sessions a
  /\ agent (state o) = agent a
  /\ scan_enable (state o) = scan_enable a.
Proof.
  unfold set_mode, set_mode_down, set_mode_scan, set_mode_done, set_mode_fail.
  destruct (scan_for new_mode);
    [|simpl; repeat split; intros; try discriminate; auto].
  split_conditions; simpl;
    repeat split; intros; try discriminate; try reflexivity; auto;
    repeat (rewrite in_app_iff; simpl); auto 10.
Qed.

Lemma set_mode_persists_iff_commits_witness :
  In (WriteDeviceMode "discoverable")
     (trace (set_mode Sample.env_ok
               (Sample.call ":1.7" "SetMode" [ArgString "discoverable"])
               MODE_DISCOVERABLE Sample.adapter0)).
Proof.
  apply (proj1 (proj2
           (set_mode_persists_iff_commits Sample.env_ok
              (Sample.call ":1.7" "SetMode" [ArgString "discoverable"])
              MODE_DISCOVERABLE Sample.adapter0))).
  reflexivity.
Defined.



Lemma with_global_mode_same (a : adapter) :
  with_global_mode (global_mode a) a = a.
Proof. destruct a; reflexivity. Qed.

Lemma with_global_mode_twice (g : Z) (a : adapter) :
  with_global_mode g (with_global_mode g a) = with_global_mode g a.
Proof. reflexivity. Qed.

(** X4: a SetMode that was answered success can be repeated for free: the
    same call on the adapter it left is answered success again, changes
    nothing and makes no external call. *)
Theorem set_mode_repeat_is_free (str2ba : string -> bdaddr) (fuel : nat)
  (e e' : hci_env) (msg : DBusMessage) (a : adapter) (o : outcome) :
  adapter_set_mode str2ba fuel e msg a = Some o ->
  reply o = Some MethodReturn ->
  read_on_mode e' = read_on_mode e ->
  adapter_set_mode str2ba fuel e' msg (state o)
  = Some (mkOut (Some MethodReturn) (state o) []).
Proof.
  intros Hset Hreply Hrd. unfold adapter_set_mode in *. rewrite Hrd.
  destruct (msg_args msg) as [|[name| |] rest];
    try (inversion Hset; subst o; discriminate).
  destruct (str2mode str2ba fuel (read_on_mode e) (address a) name)
    as [g|] eqn:Hg; [|discriminate].
  simpl in Hset.
  destruct (g =? mode a) eqn:Hsame.
  { inversion Hset; subst o. simpl. rewrite Hg. simpl. rewrite Hsame.
    reflexivity. }
  destruct (negb (is_nil (sessions a)) && (g <? mode a)) eqn:Hconf.
  - unfold confirm_mode in Hset. simpl in Hset.
    destruct (agent a) eqn:Hagent.
    + rewrite Hg in Hset. destruct (agent_ret e <? 0);
        inversion Hset; subst o; discriminate.
    + inversion Hset; subst o. simpl. rewrite Hg. simpl.
      rewrite Hsame, Hconf. unfold confirm_mode. simpl. rewrite Hagent.
      reflexivity.
  - rewrite Hg in Hset. inversion Hset; subst o. clear Hset.
    destruct (set_mode_frame e msg g (with_global_mode g a))
      as (Hgm & Haddr).
    destruct (set_mode_commit_or_abort e msg g (with_global_mode g a))
      as (r & Hr & _ & Hok & _).
    rewrite Hreply in Hr. inversion Hr; subst r.
    destruct (Hok eq_refl) as [Hm _].
    change (address (with_global_mode g a)) with (address a) in Haddr.
    remember (state (set_mode e msg g (with_global_mode g a))) as s eqn:Hs.
    change (global_mode (with_global_mode g a)) with g in Hgm.
    rewrite Haddr, Hg. cbn -[Z.eqb Z.ltb set_mode].
    rewrite Hm, Z.eqb_refl. rewrite <- Hgm.
    now rewrite with_global_mode_same.
Qed.

Lemma set_mode_repeat_is_free_witness :
  exists o,
    adapter_set_mode Sample.str2ba 0 Sample.env_ok
      (Sample.call ":1.7" "SetMode" [ArgString "discoverable"])
      Sample.adapter0 = Some o
    /\ adapter_set_mode Sample.str2ba 0 Sample.env_ok
         (Sample.call ":1.7" "SetMode" [ArgString "discoverable"]) (state o)
       = Some (mkOut (Some MethodReturn) (state o) []).
Proof.
  eexists. split; [vm_compute; reflexivity|].
  apply (set_mode_repeat_is_free Sample.str2ba 0 Sample.env_ok Sample.env_ok
           (Sample.call ":1.7" "SetMode" [ArgString "discoverable"])
           Sample.adapter0); reflexivity.
Defined.

(** ** The session registry *)

Lemma find_session_none (l : list mode_req) (msg : DBusMessage) :
  g_slist_find_custom l msg find_session = None
  <-> ~ In (cstr (msg_sender msg))
          (map (fun r => cstr (msg_sender (req_msg r))) l).
Proof.
  unfold g_slist_find_custom, find_session.
  induction l as [|r l IH]; simpl; [tauto|].
  destruct (Z.eqb_spec (strcmp (msg_sender (req_msg r)) (msg_sender msg)) 0)
    as [H0|H0].
  - apply strcmp_zero_iff in H0. split; [discriminate | intros H].
    exfalso. apply H. now left.
  - rewrite IH. rewrite strcmp_zero_iff in H0. tauto.
Qed.

Lemma find_session_some (l : list mode_req) (msg : DBusMessage)
  (req : mode_req) :
  g_slist_find_custom l msg find_session = Some req ->
  In req l /\ cstr (msg_sender (req_msg req)) = cstr (msg_sender msg).
Proof.
  unfold g_slist_find_custom. intros H. apply find_some in H.
  destruct H as [Hin H0]. split; [assumption|].
  apply Z.eqb_eq in H0. now apply strcmp_zero_iff.
Qed.



Lemma g_slist_remove_map_notin {A B} (f : A -> B)
  (dec : forall x y : A, {x = y} + {x <> y}) (l : list A) (x : A) :
  NoDup (map f l) -> In x l ->
  ~ In (f x) (map f (g_slist_remove dec l x))
  /\ (forall b, b <> f x ->
                (In b (map f (g_slist_remove dec l x)) <-> In b (map f l))).
Proof.
  induction l as [|z l IH]; simpl; [tauto|].
  intros H Hin. inversion H as [|? ? Hnotin Hnd]; subst.
  destruct (dec z x) as [->|Hne].
  - split; [assumption|]. intros b Hb. split; [tauto|].
    intros [Hz|Hl]; [congruence | assumption].
  - destruct Hin as [Hin|Hin]; [contradiction|].
    destruct (IH Hnd Hin) as [H1 H2]. simpl. split.
    + intros [Hz|Hl]; [|contradiction].
      apply Hnotin. rewrite Hz. now apply in_map.
    + intros b Hb. rewrite (H2 b Hb). tauto.
Qed.

Lemma g_slist_remove_last {A} (dec : forall x y : A, {x = y} + {x <> y})
  (l : list A) (x : A) :
  ~ In x l -> g_slist_remove dec (l ++ [x]) x = l.
Proof.
  induction l as [|z l IH]; simpl; intros H.
  - destruct (dec x x); [reflexivity | contradiction].
  - destruct (dec z x) as [->|Hne]; [tauto|]. rewrite IH; tauto.
Qed.





(** What RequestMode does to the registry: nothing, or it appends one
    session held under the caller's name, which was not there before. *)
Lemma request_mode_sessions (str2ba : string -> bdaddr) (fuel : nat)
  (e : hci_env) (msg : DBusMessage) (a : adapter) (o : outcome) :
  request_mode str2ba fuel e msg a = Some o ->
  sessions (state o) = sessions a
  \/ (exists req,
         sessions (state o) = sessions a ++ [req]
         /\ req_msg req = msg
         /\ ~ In (cstr (msg_sender msg)) (session_senders a)).
Proof.
  unfold request_mode. intros H.
  destruct (msg_args msg) as [|[name| |] rest];
    try (inversion H; subst o; now left).
  destruct (str2mode str2ba fuel (read_on_mode e) (address a) name)
    as [m|]; [|discriminate].
  destruct (negb (m =? MODE_CONNECTABLE) && negb (m =? MODE_DISCOVERABLE));
    [inversion H; subst o; now left|].
  destruct (agent a); [|inversion H; subst o; now left].
  destruct (g_slist_find_custom (sessions a) msg find_session) eqn:Hfind;
    [inversion H; subst o; now left|].
  apply find_session_none in Hfind.
  right. exists (mkReq msg m (new_watch e)).
  destruct (is_nil (sessions a));
    cbn -[Z.geb Z.ltb] in H;
    destruct (_ >=? m); [| destruct (agent_ret e <? 0) | |
                           destruct (agent_ret e <? 0)];
    inversion H; subst o; simpl; auto.
Qed.



Lemma find_app_none {A} (f : A -> bool) (l1 l2 : list A) :
  find f l1 = None -> find f (l1 ++ l2) = find f l2.
Proof.
  induction l1 as [|x l1 IH]; simpl; [reflexivity|].
  destruct (f x); [discriminate | exact IH].
Qed.

Lemma request_mode_keeps_mode (str2ba : string -> bdaddr) (fuel : nat)
  (e : hci_env) (msg : DBusMessage) (a : adapter) (o : outcome) :
  request_mode str2ba fuel e msg a = Some o -> mode (state o) = mode a.
Proof.
  unfold request_mode. intros H.
  repeat match type of H with
         | context [match ?x with _ => _ end] => destruct x eqn:?
         end;
    inversion H; subst o; reflexivity.
Qed.

(** X6: a session taken is given back whole: when RequestMode did not fail,
    a ReleaseMode from the same client succeeds and leaves the registry
    and the enacted mode as they were before the request. *)
Theorem request_then_release (str2ba : string -> bdaddr) (fuel : nat)
  (e : hci_env) (msg msg' : DBusMessage) (a : adapter) (o : outcome) :
  request_mode str2ba fuel e msg a = Some o ->
  (forall r, reply o = Some r -> is_error r = false) ->
  cstr (msg_sender msg') = cstr (msg_sender msg) ->
  reply (release_mode msg' (state o)) = Some MethodReturn
  /\ sessions (state (release_mode msg' (state o))) = sessions a
  /\ mode (state (release_mode msg' (state o))) = mode a.
Proof.
  intros Hreq Hok Hsender.
  pose proof (request_mode_keeps_mode _ _ _ _ _ _ Hreq) as Hmode.
  assert (exists req,
             sessions (state o) = sessions a ++ [req]
             /\ req_msg req = msg
             /\ ~ In (cstr (msg_sender msg)) (session_senders a)) as Hadd.
  { destruct (request_mode_sessions _ _ _ _ _ _ Hreq) as [Hs|H];
      [|assumption].
    exfalso. revert Hreq Hs. unfold request_mode. intros H.
    repeat match type of H with
           | context [match ?x with _ => _ end] => destruct x eqn:?
           end;
      inversion H; subst o; simpl in *;
      try (specialize (Hok _ eq_refl); discriminate);
      intros Hs; apply (f_equal (@List.length _)) in Hs;
      rewrite ?List.length_app in Hs; simpl in Hs; lia. }
  destruct Hadd as (req & Hs & Hmsg & Hnew).
  assert (g_slist_find_custom (sessions (state o)) msg' find_session
          = Some req) as Hfind.
  { rewrite Hs. unfold g_slist_find_custom. rewrite find_app_none.
    2:{ apply (proj2 (find_session_none (sessions a) msg')).
        now rewrite Hsender. }
    simpl. unfold find_session. rewrite Hmsg.
    apply strcmp_zero_iff in Hsender.
    assert (strcmp (msg_sender msg) (msg_sender msg') = 0) as ->.
    { apply strcmp_zero_iff. now symmetry; apply strcmp_zero_iff. }
    reflexivity. }
  unfold release_mode. rewrite Hfind. simpl. rewrite Hs.
  split; [reflexivity|]. split; [|assumption].
  apply g_slist_remove_last. intros Hin. apply Hnew.
  unfold session_senders. apply in_map_iff. exists req.
  now rewrite Hmsg.
Qed.

Lemma request_then_release_witness :
  exists o,
    request_mode Sample.str2ba 0 Sample.env_ok
      (Sample.call ":1.8" "RequestMode" [ArgString "connectable"])
      Sample.adapter0 = Some o
    /\ reply (release_mode (Sample.call ":1.8" "ReleaseMode" []) (state o))
       = Some MethodReturn
    /\ sessions (state (release_mode (Sample.call ":1.8" "ReleaseMode" [])
                          (state o)))
       = sessions Sample.adapter0.
Proof.
  eexists. split; [vm_compute; reflexivity|].
  destruct (request_then_release Sample.str2ba 0 Sample.env_ok
              (Sample.call ":1.8" "RequestMode" [ArgString "connectable"])
              (Sample.call ":1.8" "ReleaseMode" [])
              Sample.adapter0 _ eq_refl) as (H1 & H2 & _).
  - intros r Hr. vm_compute in Hr. inversion Hr. reflexivity.
  - reflexivity.
  - split; [exact H1 | exact H2].
Defined.

(** X7: ReleaseMode succeeds exactly for a client that holds a session.
    Afterwards that client holds none, every other client holds what it
    held, and a call that failed changed nothing. *)
Theorem release_mode_removes_sender (msg : DBusMessage) (a : adapter) :
  NoDup (session_senders a) ->
  (reply (release_mode msg a) = Some MethodReturn
   <-> In (cstr (msg_sender msg)) (session_senders a))
  /\ ~ In (cstr (msg_sender msg))
          (session_senders (state (release_mode msg a)))
  /\ (forall s, s <> cstr (msg_sender msg) ->
                (In s (session_senders (state (release_mode msg a)))
                 <-> In s (session_senders a)))
  /\ (reply (release_mode msg a) <> Some MethodReturn ->
      state (release_mode msg a) = a).
Proof.
  intros Hnd. unfold release_mode.
  destruct (g_slist_find_custom (sessions a) msg find_session) as [req|]
    eqn:Hfind.
  - apply find_session_some in Hfind. destruct Hfind as [Hin Hs].
    destruct (g_slist_remove_map_notin
                (fun r => cstr (msg_sender (req_msg r)))
                mode_req_eq_dec (sessions a) req Hnd Hin) as [H1 H2].
    simpl. unfold session_senders. simpl. rewrite <- Hs.
    split; [split; [intros _; apply in_map_iff; now exists req
                   | reflexivity]|].
    split; [exact H1|].
    split; [intros s Hne; now apply H2|].
    intros H. exfalso. now apply H.
  - apply find_session_none in Hfind. simpl.
    repeat split; intros; try discriminate; try tauto.
Qed.

Lemma release_mode_removes_sender_witness :
  reply (release_mode (Sample.call ":1.7" "ReleaseMode" [])
           Sample.adapter_in_session) = Some MethodReturn
  /\ state (release_mode (Sample.call ":1.9" "ReleaseMode" [])
              Sample.adapter_in_session) = Sample.adapter_in_session.
Proof.
  assert (NoDup (session_senders Sample.adapter_in_session)) as Hnd.
  { vm_compute. constructor; [intros [] | constructor]. }
  split.
  - apply (proj1 (release_mode_removes_sender
                    (Sample.call ":1.7" "ReleaseMode" [])
                    Sample.adapter_in_session Hnd)).
    vm_compute. left. reflexivity.
  - apply (proj2 (proj2 (proj2
             (release_mode_removes_sender
                (Sample.call ":1.9" "ReleaseMode" [])
                Sample.adapter_in_session Hnd)))).
    vm_compute. discriminate.
Defined.
(** ** More on discovery and bonding *)






(** X9: the watch on the raw link answers the requester of the bonding at
    most once: either it ends the bonding with exactly one reply, never a
    plain success, or it has just requested authentication, sent nothing
    and left the bonding in flight, marked [auth_active]. *)
Theorem bonding_callback_replies_once (ba2str : bdaddr -> string)
  (e : hci_env) (cond : Z) (a : adapter) (b : bonding_request_info) :
  bonding a = Some b ->
  let o := create_bonding_conn_complete ba2str e cond a in
  (exists r, sent (trace o) = [(b_msg b, r)]
             /\ r <> MethodReturn
             /\ r <> AuthenticationReturn 0
             /\ bonding (state o) = None)
  \/ (sent (trace o) = []
      /\ exists b', bonding (state o) = Some b'
                    /\ b_auth_active b' = true
                    /\ b_msg b' = b_msg b
                    /\ b_bdaddr b' = b_bdaddr b
                    /\ b_cancel b' = b_cancel b).
Proof.
  intros Hb. unfold create_bonding_conn_complete. rewrite Hb.
  assert (forall t r, sent t = [(b_msg b, r)] ->
                      r <> MethodReturn -> r <> AuthenticationReturn 0 ->
                      exists r',
                        sent (trace (bonding_failed ba2str b a t))
                        = [(b_msg b, r')]
                        /\ r' <> MethodReturn
                        /\ r' <> AuthenticationReturn 0
                        /\ bonding (state (bonding_failed ba2str b a t))
                           = None) as Hfail.
  { intros t r Ht H1 H2.
    destruct (bonding_failed_sent ba2str b a t) as [Hs Hn].
    exists r. rewrite Hs, Hn. auto. }
  assert (exists r, sent (reply_authentication_failure b) = [(b_msg b, r)]
                    /\ r <> MethodReturn /\ r <> AuthenticationReturn 0)
    as (ra & Hra & Hra1 & Hra2).
  { unfold reply_authentication_failure. simpl.
    destruct (Z.eqb_spec (b_hci_status b) 0) as [H0|H0]; simpl;
      eexists; (split; [reflexivity|]); split; try discriminate;
      unfold HCI_AUTHENTICATION_FAILURE; congruence. }
  split_conditions;
    try (left; eapply Hfail;
         [first [exact Hra | reflexivity] | first [exact Hra1 | discriminate]
         | first [exact Hra2 | discriminate]]).
  - left. eexists. simpl. repeat split; discriminate.
  - right. simpl. split; [reflexivity|]. eexists. repeat split.
Qed.

Lemma bonding_callback_replies_once_witness :
  (List.length
     (sent (trace (create_bonding_conn_complete Sample.ba2str Sample.env_ok
                     G_IO_HUP Sample.adapter_bonding))) <= 1)%nat.
Proof.
  destruct (bonding_callback_replies_once Sample.ba2str Sample.env_ok
              G_IO_HUP Sample.adapter_bonding Sample.bonding0 eq_refl)
    as [(r & Hs & _)|(Hs & _)]; rewrite Hs; simpl; auto.
Defined.
(** The reply to a hangup or error on a valid descriptor, as one
    equation. *)
Lemma bonding_hangup_reply_parts (ba2str : bdaddr -> string) (e : hci_env)
  (cond : Z) (a : adapter) (b : bonding_request_info) :
  bonding a = Some b ->
  Z.land cond G_IO_NVAL = 0 ->
  Z.land cond (Z.lor G_IO_HUP G_IO_ERR) <> 0 ->
  sent (trace (create_bonding_conn_complete ba2str e cond a))
  = [(b_msg b,
      if b_auth_active b
      then AuthenticationReturn (if b_hci_status b =? 0
                                 then HCI_AUTHENTICATION_FAILURE
                                 else b_hci_status b)
      else ConnectionAttemptFailed ENETDOWN)]
  /\ bonding (state (create_bonding_conn_complete ba2str e cond a)) = None.
Proof.
  intros Hb Hnval Hhup. unfold create_bonding_conn_complete.
  rewrite Hb, Hnval. apply Z.eqb_neq in Hhup. rewrite Hhup. simpl.
  destruct (b_auth_active b); simpl;
    match goal with
    | |- context [bonding_failed ba2str b a ?t] =>
        destruct (bonding_failed_sent ba2str b a t) as [Hs Hn]
    end; rewrite Hs, Hn; split; try reflexivity.
  unfold reply_authentication_failure. simpl.
  now destruct (b_hci_status b =? 0).
Qed.
(** X10: a pairing that got as far as the authentication request ends on the
    next hangup or error of the link: the first run of the watch sends
    nothing, and the second answers the requester with the authentication
    result built from the recorded status (the generic failure when none
    is recorded) and clears the bonding. *)
Theorem bonding_auth_then_hangup (ba2str : bdaddr -> string)
  (e e2 : hci_env) (cond cond2 : Z) (a : adapter)
  (b : bonding_request_info) :
  bonding a = Some b ->
  Z.land cond G_IO_NVAL = 0 ->
  Z.land cond (Z.lor G_IO_HUP G_IO_ERR) = 0 ->
  0 <= so_ret e -> so_error e = 0 -> 0 <= ci_ret e -> 0 <= dd e ->
  0 <= req_ret e -> req_status e = 0 ->
  Z.land cond2 G_IO_NVAL = 0 ->
  Z.land cond2 (Z.lor G_IO_HUP G_IO_ERR) <> 0 ->
  let o1 := create_bonding_conn_complete ba2str e cond a in
  let o2 := create_bonding_conn_complete ba2str e2 cond2 (state o1) in
  sent (trace o1) = []
  /\ sent (trace o2)
     = [(b_msg b,
         AuthenticationReturn (if b_hci_status b =? 0
                               then HCI_AUTHENTICATION_FAILURE
                               else b_hci_status b))]
  /\ bonding (state o2) = None.
Proof.
  intros Hb Hn Hh Hso Hse Hci Hdd Hreq Hst Hn2 Hh2.
  assert (create_bonding_conn_complete ba2str e cond a
          = mkOut None
              (with_bonding
                 (Some (mkBonding (b_msg b) (b_bdaddr b) (b_io_closed b)
                                  (new_watch e) (b_listener_id b)
                                  (b_hci_status b) (b_cancel b) true)) a)
              ([HciOpenDev (dd e);
                AuthRequested (ci_handle e) (req_ret e) (req_errno e)
                              (req_status e)]
               ++ [HciCloseDev;
                   IoAddWatch (Z.lor G_IO_NVAL (Z.lor G_IO_HUP G_IO_ERR))
                              (new_watch e)])) as H1.
  { unfold create_bonding_conn_complete. rewrite Hb, Hn, Hh, Hse, Hst.
    apply Z.ltb_ge in Hso, Hci, Hdd, Hreq. rewrite Hso, Hci, Hdd, Hreq.
    reflexivity. }
  cbv zeta. rewrite H1. split; [reflexivity|]. cbn [state].
  match goal with
  | |- context [create_bonding_conn_complete ba2str e2 cond2 ?s] =>
      destruct (bonding_hangup_reply_parts ba2str e2 cond2 s _ eq_refl Hn2 Hh2)
        as (Hs & Hnone)
  end.
  split; [|exact Hnone].
  rewrite Hs. reflexivity.
Qed.

Lemma bonding_auth_then_hangup_witness :
  let o1 := create_bonding_conn_complete Sample.ba2str Sample.env_ok
              G_IO_OUT Sample.adapter_bonding in
  sent (trace o1) = []
  /\ sent (trace (create_bonding_conn_complete Sample.ba2str Sample.env_ok
                    G_IO_HUP (state o1)))
     = [(b_msg Sample.bonding0,
         AuthenticationReturn HCI_AUTHENTICATION_FAILURE)].
Proof.
  destruct (bonding_auth_then_hangup Sample.ba2str Sample.env_ok
              Sample.env_ok G_IO_OUT G_IO_HUP Sample.adapter_bonding
              Sample.bonding0 eq_refl eq_refl eq_refl
              ltac:(vm_compute; discriminate) eq_refl
              ltac:(vm_compute; discriminate)
              ltac:(vm_compute; discriminate)
              ltac:(vm_compute; discriminate) eq_refl eq_refl
              ltac:(vm_compute; discriminate)) as (H1 & H2 & _).
  split; [exact H1 | exact H2].
Defined.


(** X12: whenever CancelBondingProcess closes the channel of the bonding,
    whatever it answers its caller, the bonding is left in flight with
    the cancel flag set, and the watch that then runs on the invalid
    descriptor answers the original requester AuthenticationCanceled and
    clears the bonding. *)
Theorem cancel_bonding_then_invalid (str2ba : string -> bdaddr)
  (ba2str : bdaddr -> string) (check_address : string -> Z)
  (e e2 : hci_env) (msg : DBusMessage) (cond2 : Z) (a : adapter)
  (b : bonding_request_info) :
  bonding a = Some b ->
  In IoChannelClose
     (trace (adapter_cancel_bonding str2ba check_address e msg a)) ->
  Z.land cond2 G_IO_NVAL <> 0 ->
  let o := adapter_cancel_bonding str2ba check_address e msg a in
  let o2 := create_bonding_conn_complete ba2str e2 cond2 (state o) in
  (reply o = Some MethodReturn \/ reply o = Some NotAuthorized)
  /\ bonding (state o) = Some (bonding_close_io (bonding_set_cancel b))
  /\ sent (trace o2) = [(b_msg b, AuthenticationCanceled)]
  /\ bonding (state o2) = None.
Proof.
  intros Hb Hclose Hnval. cbv zeta.
  assert ((reply (adapter_cancel_bonding str2ba check_address e msg a)
           = Some MethodReturn
           \/ reply (adapter_cancel_bonding str2ba check_address e msg a)
              = Some NotAuthorized)
          /\ bonding (state (adapter_cancel_bonding str2ba check_address
                               e msg a))
             = Some (bonding_close_io (bonding_set_cancel b))) as [Hr Hs].
  { revert Hclose. unfold adapter_cancel_bonding. rewrite Hb.
    destruct (negb (up a)); [simpl; tauto|].
    destruct (msg_args msg) as [|[addr| |] rest]; try (simpl; tauto).
    destruct (check_address addr <? 0); [simpl; tauto|].
    destruct (negb (b_bdaddr b =? str2ba addr)); [simpl; tauto|].
    destruct (negb (strcmp _ _ =? 0)); [simpl; tauto|].
    destruct (g_slist_find_custom _ _ pin_req_cmp) as [p|];
      [|simpl; auto].
    destruct (pin_replied p); [simpl; auto|].
    destruct (dd e <? 0); simpl; [|auto].
    intros [H|[]]. discriminate. }
  split; [exact Hr|]. split; [exact Hs|].
  unfold create_bonding_conn_complete. rewrite Hs.
  apply Z.eqb_neq in Hnval. rewrite Hnval. simpl. auto.
Qed.

Lemma cancel_bonding_then_invalid_witness :
  let o := adapter_cancel_bonding Sample.str2ba Sample.check_address
             Sample.env_ok
             (Sample.call ":1.7" "CancelBondingProcess"
                          [ArgString Sample.peer]) Sample.adapter_bonding in
  sent (trace (create_bonding_conn_complete Sample.ba2str Sample.env_ok
                 G_IO_NVAL (state o)))
  = [(b_msg Sample.bonding0, AuthenticationCanceled)].
Proof.
  intros o.
  apply (proj1 (proj2 (proj2
           (cancel_bonding_then_invalid Sample.str2ba Sample.ba2str
              Sample.check_address Sample.env_ok Sample.env_ok
              (Sample.call ":1.7" "CancelBondingProcess"
                           [ArgString Sample.peer])
              G_IO_NVAL Sample.adapter_bonding Sample.bonding0 eq_refl
              ltac:(vm_compute; left; reflexivity)
              ltac:(vm_compute; discriminate))))).
Defined.

(** X13: [pending_remote_name_cancel] is spent after one run: when the
    command link opened (or nothing was pending), no found device is
    left waiting for its name, and running it again returns 0 and does
    nothing. *)
Theorem pending_remote_name_cancel_once (e e' : hci_env) (a : adapter) :
  0 <= rn_dd e ->
  let a1 := snd (fst (pending_remote_name_cancel e a)) in
  (forall d, In d (found_devices a1) -> fd_name_status d <> NAME_REQUESTED)
  /\ pending_remote_name_cancel e' a1 = (0, a1, []).
Proof.
  intros Hdd. unfold pending_remote_name_cancel at 1 2.
  destruct (g_slist_find_custom (found_devices a) NAME_REQUESTED
                                found_device_cmp) as [d0|] eqn:Hfind.
  - apply Z.ltb_ge in Hdd. rewrite Hdd. simpl. split; [tauto | reflexivity].
  - simpl. split.
    + intros d Hin Hst. unfold g_slist_find_custom in Hfind.
      apply (find_none _ _ Hfind) in Hin. unfold found_device_cmp in Hin.
      rewrite Hst in Hin. discriminate.
    + unfold pending_remote_name_cancel. now rewrite Hfind.
Qed.

Lemma pending_remote_name_cancel_once_witness :
  let a := with_found_devices
             [mkFound 7 NAME_SENT; mkFound 9 NAME_REQUESTED] Sample.adapter0 in
  let a1 := snd (fst (pending_remote_name_cancel Sample.env_ok a)) in
  pending_remote_name_cancel Sample.env_ok a1 = (0, a1, []).
Proof.
  intros a a1.
  apply (proj2 (pending_remote_name_cancel_once Sample.env_ok Sample.env_ok
                  a ltac:(vm_compute; discriminate))).
Defined.

Lemma land_lor_bit (x c m : Z) :
  Z.land c m = 0 -> Z.land (Z.lor x c) m = Z.land x m.
Proof.
  intros H. rewrite Z.land_lor_distr_l, H. apply Z.lor_0_r.
Qed.

Lemma land_lor_set (x c m : Z) :
  Z.land c m = m -> Z.land (Z.lor x c) m = m.
Proof.
  intros H. rewrite Z.land_lor_distr_l, H.
  apply Z.bits_inj'. intros n Hn.
  rewrite Z.lor_spec, Z.land_spec.
  destruct (Z.testbit m n); destruct (Z.testbit x n); reflexivity.
Qed.

(** X14: DiscoverDevices records a discovery only when it answers success:
    then the caller is the requestor, watched for its exit, the standard
    inquiry bit is set and the periodic bit is kept as it was; on every
    other answer the type, the requestor and the listener are untouched.
    A bonding in flight is never touched. *)
Theorem discover_devices_records (e : hci_env) (msg : DBusMessage)
  (a : adapter) :
  let o := adapter_discover_devices e msg a in
  (reply o = Some MethodReturn ->
   discov_requestor (state o) = Some (msg_sender msg)
   /\ discov_listener (state o) = new_watch e
   /\ In (AddDisconnectWatch (msg_sender msg) (new_watch e)) (trace o)
   /\ Z.land (discov_type (state o)) STD_INQUIRY = STD_INQUIRY
   /\ Z.land (discov_type (state o)) PERIODIC_INQUIRY
      = Z.land (discov_type a) PERIODIC_INQUIRY)
  /\ (reply o <> Some MethodReturn ->
      discov_type (state o) = discov_type a
      /\ discov_requestor (state o) = discov_requestor a
      /\ discov_listener (state o) = discov_listener a)
  /\ bonding (state o) = bonding a.
Proof.
  unfold adapter_discover_devices.
  destruct (negb (up a));
    [simpl; repeat split; intros; try discriminate; auto|].
  destruct (negb (is_nil (msg_args msg)));
    [simpl; repeat split; intros; try discriminate; auto|].
  destruct (discov_active a);
    [simpl; repeat split; intros; try discriminate; auto|].
  assert (bonding (snd (fst (pending_remote_name_cancel e a))) = bonding a
          /\ discov_type (snd (fst (pending_remote_name_cancel e a)))
             = discov_type a
          /\ discov_requestor (snd (fst (pending_remote_name_cancel e a)))
             = discov_requestor a
          /\ discov_listener (snd (fst (pending_remote_name_cancel e a)))
             = discov_listener a) as Hframe.
  { unfold pending_remote_name_cancel.
    destruct (g_slist_find_custom _ _ found_device_cmp); [|simpl; auto].
    destruct (rn_dd e <? 0); simpl; auto. }
  destruct (pending_remote_name_cancel e a) as [[err a1] t1].
  simpl in Hframe. destruct Hframe as (Hb & Ht & Hr & Hl).
  destruct (is_some (bonding a1));
    [simpl; repeat split; intros; try discriminate; auto|].
  destruct (dd e <? 0).
  { simpl. repeat split; intros; try discriminate; auto. }
  destruct (req_ret e <? 0);
    [simpl; repeat split; intros; try discriminate; auto|].
  destruct (negb (req_status e =? 0));
    [simpl; repeat split; intros; try discriminate; auto|].
  destruct (strcmp "DiscoverDevicesWithoutNameResolving" (msg_member msg)
            =? 0);
    cbn -[Z.land Z.lor];
    (split; [|split; [intros H; now contradiction H | exact Hb]]);
    intros _; (split; [reflexivity|]); (split; [reflexivity|]);
    (split; [rewrite in_app_iff; simpl; auto|]);
    rewrite Ht;
    split; first [apply land_lor_set | apply land_lor_bit]; reflexivity.
Qed.

Lemma discover_devices_records_witness :
  let o := adapter_discover_devices Sample.env_ok
             (Sample.call ":1.9" "DiscoverDevices" [])
             Sample.adapter_periodic in
  discov_listener (state o) = 42
  /\ Z.land (discov_type (state o)) PERIODIC_INQUIRY = PERIODIC_INQUIRY.
Proof.
  intros o.
  destruct (proj1 (discover_devices_records Sample.env_ok
                     (Sample.call ":1.9" "DiscoverDevices" [])
                     Sample.adapter_periodic) eq_refl)
    as (_ & Hl & _ & _ & Hp).
  split; [exact Hl | exact Hp].
Defined.

Import Audio.
Import AudioRequests.

(** ** More on the audio device *)

Ltac audio_open d :=
  destruct d as [b sk so ct ac [st ss av cr dr c1 c2 c3 dc di]];
  cbn in *.

Lemma audio_sent_app (t1 t2 : list audio_effect) :
  audio_sent (t1 ++ t2) = audio_sent t1 ++ audio_sent t2.
Proof.
  induction t1 as [|ef t1 IH]; simpl; [reflexivity|].
  destruct ef; simpl; rewrite ?IH; reflexivity.
Qed.

Lemma device_set_state_pending (s : audio_state_t) (d : audio_device) :
  (List.length (audio_sent (snd (device_set_state s d)))
   + List.length (pending (fst (device_set_state s d)))
   = List.length (pending d))%nat
  /\ (forall m r, In (m, r) (audio_sent (snd (device_set_state s d))) ->
                  In m (pending d)).
Proof.
  unfold device_set_state, set_state_watch, pending.
  audio_open d.
  destruct s, st, cr, dr, (dc =? 0); cbn;
    (split; [reflexivity|]); intros m r H;
    repeat (destruct H as [H|H]; [inversion H; subst; auto|]);
    try contradiction; auto.
Qed.

(** X15: over any run of state changes, a request held by the device is
    answered at most once and nothing else is ever answered: the replies
    sent and the requests still held always add up to the requests held
    at the start, and every reply goes to one of those. *)
Theorem requests_answered_once (l : list audio_state_t) (d : audio_device) :
  (List.length (audio_sent (set_states_trace l d))
   + List.length (pending (set_states l d))
   = List.length (pending d))%nat
  /\ (forall m r, In (m, r) (audio_sent (set_states_trace l d)) ->
                  In m (pending d)).
Proof.
  revert d; induction l as [|s l IH]; intros d; simpl.
  - split; [reflexivity | tauto].
  - destruct (device_set_state_pending s d) as [H1 H2].
    destruct (IH (fst (device_set_state s d))) as [H3 H4].
    rewrite audio_sent_app, List.length_app. split; [lia|].
    intros m r Hin. apply in_app_iff in Hin. destruct Hin as [Hin|Hin].
    + eapply H2; eassumption.
    + specialize (H4 m r Hin).
      clear - H4. revert H4.
      unfold device_set_state, set_state_watch, pending.
      audio_open d.
      destruct s, st, cr, dr, (dc =? 0); cbn; tauto.
Qed.

Lemma requests_answered_once_witness :
  let d := snd (fst (dev_connect true
                       [SinkCb SINK_STATE_DISCONNECTED SINK_STATE_CONNECTING]
                       AudioSample.connect_call AudioSample.device0)) in
  pending d = [AudioSample.connect_call]
  /\ In AudioSample.connect_call (pending d).
Proof.
  intros d. split; [reflexivity|].
  apply (proj2 (requests_answered_once
                  [AUDIO_STATE_CONNECTED] d)
           AudioSample.connect_call ReplyOk).
  vm_compute. left. reflexivity.
Defined.
Lemma announced_state_app (t1 t2 : list audio_effect) (init : string) :
  announced_state (t1 ++ t2) init
  = announced_state t2 (announced_state t1 init).
Proof.
  revert init; induction t1 as [|ef t1 IH]; intros init; simpl;
    [reflexivity|].
  destruct ef; apply IH.
Qed.

Lemma device_set_state_announced (s : audio_state_t) (d : audio_device) :
  announced_state (snd (device_set_state s d)) (state2str (state (priv d)))
  = state2str s.
Proof.
  unfold device_set_state, set_state_watch.
  audio_open d.
  destruct s, st, cr, dr, (dc =? 0); reflexivity.
Qed.

(** X16: a client that follows the PropertyChanged signals never disagrees
    with GetProperties: after any run of state changes, the state last
    announced (or the one known before, if none was) is the one
    GetProperties reports. *)
Theorem announced_state_is_reported (l : list audio_state_t)
  (d : audio_device) :
  dev_get_properties (set_states l d)
  = [("State",
      announced_state (set_states_trace l d) (state2str (state (priv d))))].
Proof.
  unfold dev_get_properties. f_equal. f_equal.
  revert d; induction l as [|s l IH]; intros d; simpl; [reflexivity|].
  rewrite announced_state_app, device_set_state_announced.
  rewrite IH. now rewrite device_set_state_state.
Qed.

(** X17: a state change is announced exactly when the state changes, and a
    call that sets the state it already has answers no request. *)
Theorem property_changed_iff_change (s : audio_state_t) (d : audio_device) :
  filter is_property_changed (snd (device_set_state s d))
  = (if audio_state_eqb (state (priv d)) s then []
     else [PropertyChanged "State" (state2str s)])
  /\ (state (priv d) = s ->
      audio_sent (snd (device_set_state s d)) = []
      /\ pending (fst (device_set_state s d)) = pending d).
Proof.
  unfold device_set_state, set_state_watch, pending.
  audio_open d.
  destruct s, st, cr, dr, (dc =? 0); cbn;
    (split; [reflexivity|]); intros H; try discriminate; auto.
Qed.

Lemma property_changed_iff_change_witness :
  audio_sent (snd (device_set_state AUDIO_STATE_DISCONNECTED
                     AudioSample.device0)) = []
  /\ pending (fst (device_set_state AUDIO_STATE_DISCONNECTED
                     AudioSample.device0)) = pending AudioSample.device0.
Proof.
  apply (proj2 (property_changed_iff_change AUDIO_STATE_DISCONNECTED
                  AudioSample.device0)).
  reflexivity.
Defined.


Lemma g_slist_remove_single (x : Z) :
  g_slist_remove Z.eq_dec [x] x = [].
Proof. simpl. destruct (Z.eq_dec x x); [reflexivity | contradiction]. Qed.

(** The four steps of a connection, each on a device in the shape the
    step before leaves. *)
Lemma sink_connecting_step (old : sink_state_t) (d : audio_device) :
  sink d = true -> state (priv d) = AUDIO_STATE_DISCONNECTED ->
  pending d = [] -> one_watch d ->
  let r := device_sink_cb old SINK_STATE_CONNECTING d in
  state (priv (fst r)) = AUDIO_STATE_CONNECTING
  /\ pending (fst r) = [] /\ one_watch (fst r) /\ sink (fst r) = true
  /\ audio_sent (snd r) = [].
Proof.
  unfold one_watch, pending, device_sink_cb, device_set_state,
    set_state_watch, device_remove_avdtp_timer.
  destruct d as [[w seq] sk so ct ac [st ss av cr dr c1 c2 c3 dc di]].
  cbn. intros -> -> Hp (Hseq & Hw & Hdc). subst w dc.
  destruct dr; [discriminate|]. destruct cr; [discriminate|].
  destruct (c2 =? 0); cbn; repeat split; auto; lia.
Qed.

Lemma sink_connected_step (m : DBusMessage) (d : audio_device) :
  sink d = true -> state (priv d) = AUDIO_STATE_CONNECTING ->
  conn_req (priv d) = Some m -> dc_req (priv d) = None -> one_watch d ->
  let r := device_sink_cb SINK_STATE_CONNECTING SINK_STATE_CONNECTED d in
  state (priv (fst r)) = AUDIO_STATE_CONNECTED
  /\ pending (fst r) = [] /\ one_watch (fst r) /\ sink (fst r) = true
  /\ sink_state (priv (fst r)) = SINK_STATE_CONNECTED
  /\ audio_sent (snd r) = [(m, ReplyOk)].
Proof.
  unfold one_watch, pending, device_sink_cb, device_set_state,
    set_state_watch.
  destruct d as [[w seq] sk so ct ac [st ss av cr dr c1 c2 c3 dc di]].
  cbn. intros -> -> -> -> (Hseq & Hw & Hdc). cbn. auto 10.
Qed.

Lemma disconnect_deferred_step (msg : DBusMessage) (d : audio_device) :
  sink d = true -> state (priv d) = AUDIO_STATE_CONNECTED ->
  sink_state (priv d) = SINK_STATE_CONNECTED ->
  pending d = [] -> one_watch d ->
  let q := dev_disconnect msg d in
  fst (fst q) = None /\ audio_sent (snd q) = []
  /\ sink (snd (fst q)) = true
  /\ state (priv (snd (fst q))) = AUDIO_STATE_CONNECTED
  /\ dc_req (priv (snd (fst q))) = Some msg
  /\ conn_req (priv (snd (fst q))) = None
  /\ one_watch (snd (fst q)).
Proof.
  unfold one_watch, pending, dev_disconnect, device_remove_control_timer.
  destruct d as [[w seq] sk so ct ac [st ss av cr dr c1 c2 c3 dc di]].
  cbn. intros -> -> -> Hp (Hseq & Hw & Hdc).
  destruct dr; [discriminate|]. destruct cr; [discriminate|].
  destruct ct, (c1 =? 0); cbn; auto 10.
Qed.

Lemma sink_disconnected_step (m : DBusMessage) (d : audio_device) :
  sink d = true -> state (priv d) = AUDIO_STATE_CONNECTED ->
  dc_req (priv d) = Some m -> conn_req (priv d) = None -> one_watch d ->
  let r := device_sink_cb SINK_STATE_CONNECTED SINK_STATE_DISCONNECTED d in
  state (priv (fst r)) = AUDIO_STATE_DISCONNECTED
  /\ pending (fst r) = [] /\ watches (btd_dev (fst r)) = []
  /\ audio_sent (snd r) = [(m, ReplyOk)].
Proof.
  unfold one_watch, pending, device_sink_cb, device_set_state,
    set_state_watch, device_remove_control_timer,
    device_remove_disconnect_watch.
  destruct d as [[w seq] sk so ct ac [st ss av cr dr c1 c2 c3 dc di]].
  cbn. intros -> -> -> -> (Hseq & Hw & Hdc). subst w.
  apply Z.eqb_neq in Hdc.
  destruct ct, (c1 =? 0); cbn; rewrite Hdc; cbn;
    rewrite ?audio_sent_app; cbn;
    (destruct (Z.eq_dec dc dc); [|contradiction]); auto.
Qed.

(** X19: one whole life of a connection, on any idle device with a sink:
    Connect is deferred once the sink reports Connecting; the sink
    reporting Connected answers the caller success and the device holds
    its one watch; Disconnect is deferred; the sink reporting
    Disconnected answers that caller success, and the device is idle
    again: Disconnected, no watch registered, no request held. *)
Theorem connect_disconnect_cycle (d : audio_device)
  (msgc msgd : DBusMessage) (old : sink_state_t) :
  state (priv d) = AUDIO_STATE_DISCONNECTED ->
  sink d = true ->
  one_watch d ->
  pending d = [] ->
  let c := dev_connect true [SinkCb old SINK_STATE_CONNECTING] msgc d in
  let s2 := device_sink_cb SINK_STATE_CONNECTING SINK_STATE_CONNECTED
                           (snd (fst c)) in
  let q := dev_disconnect msgd (fst s2) in
  let s4 := device_sink_cb SINK_STATE_CONNECTED SINK_STATE_DISCONNECTED
                           (snd (fst q)) in
  (fst (fst c) = None /\ audio_sent (snd c) = [])
  /\ (audio_sent (snd s2) = [(msgc, ReplyOk)]
      /\ state (priv (fst s2)) = AUDIO_STATE_CONNECTED
      /\ one_watch (fst s2))
  /\ (fst (fst q) = None /\ audio_sent (snd q) = [])
  /\ (audio_sent (snd s4) = [(msgd, ReplyOk)]
      /\ state (priv (fst s4)) = AUDIO_STATE_DISCONNECTED
      /\ watches (btd_dev (fst s4)) = []
      /\ pending (fst s4) = []).
Proof.
  intros Hst Hsink Hw Hp.
  assert (one_watch (with_auto_connect true d)
          /\ pending (with_auto_connect true d) = []
          /\ state (priv (with_auto_connect true d))
             = AUDIO_STATE_DISCONNECTED
          /\ sink (with_auto_connect true d) = true) as (Hw0 & Hp0 & Hs0 & Hk0).
  { destruct d; auto. }
  destruct (sink_connecting_step old _ Hk0 Hs0 Hp0 Hw0)
    as (H1 & H2 & H3 & H4 & H5).
  assert (dev_connect true [SinkCb old SINK_STATE_CONNECTING] msgc d
          = (None,
             with_priv
               (with_conn_req (Some msgc)
                  (priv (fst (device_sink_cb old SINK_STATE_CONNECTING
                                (with_auto_connect true d)))))
               (fst (device_sink_cb old SINK_STATE_CONNECTING
                       (with_auto_connect true d))),
             SinkSetupStream
               :: snd (device_sink_cb old SINK_STATE_CONNECTING
                         (with_auto_connect true d)) ++ [])) as Hc.
  { unfold dev_connect. rewrite Hst. cbn [sink with_auto_connect].
    rewrite Hsink. unfold fire_all, fire.
    destruct (device_sink_cb old SINK_STATE_CONNECTING
                (with_auto_connect true d)) as [d1 t1]. cbn [fst snd] in *.
    rewrite H1. reflexivity. }
  cbv zeta. rewrite Hc. cbn [fst snd].
  remember (fst (device_sink_cb old SINK_STATE_CONNECTING
                   (with_auto_connect true d))) as d1.
  remember (snd (device_sink_cb old SINK_STATE_CONNECTING
                   (with_auto_connect true d))) as t1.
  assert (sink (with_priv (with_conn_req (Some msgc) (priv d1)) d1) = true
          /\ state (priv (with_priv (with_conn_req (Some msgc) (priv d1)) d1))
             = AUDIO_STATE_CONNECTING
          /\ conn_req (priv (with_priv (with_conn_req (Some msgc) (priv d1))
                               d1)) = Some msgc
          /\ dc_req (priv (with_priv (with_conn_req (Some msgc) (priv d1))
                             d1)) = None
          /\ one_watch (with_priv (with_conn_req (Some msgc) (priv d1)) d1))
    as (Ga & Gb & Gc & Gd & Ge).
  { clear - H1 H2 H3 H4. unfold pending, one_watch in *.
    destruct d1 as [[w seq] sk so ct ac [st ss av cr dr c1 c2 c3 dc di]].
    cbn in *. subst. destruct dr; [discriminate|]. auto. }
  destruct (sink_connected_step msgc _ Ga Gb Gc Gd Ge)
    as (K1 & K2 & K3 & K4 & K5 & K6).
  remember (device_sink_cb SINK_STATE_CONNECTING SINK_STATE_CONNECTED
              (with_priv (with_conn_req (Some msgc) (priv d1)) d1)) as s2.
  destruct (disconnect_deferred_step msgd _ K4 K1 K5 K2 K3)
    as (Q1 & Q2 & Q3 & Q4 & Q5 & Q6 & Q7).
  remember (dev_disconnect msgd (fst s2)) as q.
  destruct (sink_disconnected_step msgd _ Q3 Q4 Q5 Q6 Q7)
    as (R1 & R2 & R3 & R4).
  split; [split; [reflexivity|]|].
  { cbn. rewrite app_nil_r. exact H5. }
  auto 10.
Qed.

Lemma connect_disconnect_cycle_witness :
  let msgd := mkMsg ":1.9" "/org/bluez/hci0/dev_00_1A_7D_DA_71_13"
                    "Disconnect" [] in
  let c := dev_connect true
             [SinkCb SINK_STATE_DISCONNECTED SINK_STATE_CONNECTING]
             AudioSample.connect_call AudioSample.device0 in
  let s2 := device_sink_cb SINK_STATE_CONNECTING SINK_STATE_CONNECTED
                           (snd (fst c)) in
  let q := dev_disconnect msgd (fst s2) in
  let s4 := device_sink_cb SINK_STATE_CONNECTED SINK_STATE_DISCONNECTED
                           (snd (fst q)) in
  audio_sent (snd s2) = [(AudioSample.connect_call, ReplyOk)]
  /\ audio_sent (snd s4) = [(msgd, ReplyOk)]
  /\ watches (btd_dev (fst s4)) = [].
Proof.
  intros msgd c s2 q s4.
  destruct (connect_disconnect_cycle AudioSample.device0
              AudioSample.connect_call msgd SINK_STATE_DISCONNECTED
              eq_refl eq_refl
              ltac:(vm_compute; repeat split; discriminate)
              eq_refl)
    as (_ & (H2 & _) & _ & (H4 & _ & Hw & _)).
  split; [exact H2|]. split; [exact H4 | exact Hw].
Defined.
(** X20: the device-level watch firing: it never changes the aggregate state,
    the watch or the requests held.  On a device that is Disconnected or
    already disconnecting it does nothing at all; otherwise it cancels
    the three timers, asks the control channel to disconnect if there is
    one, and asks the sink to disconnect, keeping [disconnecting] set,
    exactly when there is a sink that is not disconnected yet. *)
Theorem disconnect_cb_effect (d : audio_device) :
  let r := disconnect_cb d in
  state (priv (fst r)) = state (priv d)
  /\ btd_dev (fst r) = btd_dev d
  /\ dc_id (priv (fst r)) = dc_id (priv d)
  /\ pending (fst r) = pending d
  /\ (state (priv d) = AUDIO_STATE_DISCONNECTED
      \/ disconnecting (priv d) = true -> r = (d, []))
  /\ (state (priv d) <> AUDIO_STATE_DISCONNECTED ->
      disconnecting (priv d) = false ->
      control_timer (priv (fst r)) = 0
      /\ avdtp_timer (priv (fst r)) = 0
      /\ headset_timer (priv (fst r)) = 0
      /\ (control d = true -> In AvrcpDisconnect (snd r))
      /\ (In (SinkDisconnect true) (snd r)
          <-> sink d = true
              /\ sink_state (priv d) <> SINK_STATE_DISCONNECTED)
      /\ (disconnecting (priv (fst r)) = true
          <-> In (SinkDisconnect true) (snd r))).
Proof.
  unfold disconnect_cb, device_remove_control_timer,
    device_remove_avdtp_timer, device_remove_headset_timer, pending.
  destruct d as [b sk so ct ac [st ss av cr dr c1 c2 c3 dc di]].
  cbn.
  destruct st, di, ct, sk, ss, (c1 =? 0), (c2 =? 0), (c3 =? 0); cbn;
    repeat split; intros; try discriminate; try congruence; auto;
    repeat match goal with
           | H : _ \/ _ |- _ => destruct H
           | H : _ /\ _ |- _ => destruct H
           end;
    try discriminate; try congruence; try contradiction;
    repeat (rewrite in_app_iff; cbn); auto 12.
Qed.

Lemma disconnect_cb_effect_witness :
  let d := fst (device_set_state AUDIO_STATE_CONNECTING
                  AudioSample.device0) in
  In AvrcpDisconnect (snd (disconnect_cb d))
  /\ control_timer (priv (fst (disconnect_cb d))) = 0.
Proof.
  intros d.
  destruct (disconnect_cb_effect d) as (_ & _ & _ & _ & _ & H).
  destruct (H ltac:(vm_compute; discriminate) eq_refl)
    as (Hc & _ & _ & Ha & _).
  split; [apply Ha; reflexivity | exact Hc].
Defined.

(** X21: a device that went through its states in lifecycle order leaves no
    disconnect watch behind when it is freed. *)
Theorem device_free_leaves_no_watch (l : list audio_state_t)
  (d : audio_device) :
  one_watch d ->
  all_in_lifecycle (state (priv d)) l = true ->
  watches (fst (device_free (set_states l d))) = [].
Proof.
  intros Hw Hl.
  pose proof (set_states_one_watch l d Hw Hl) as H.
  unfold one_watch in H. unfold device_free, device_remove_disconnect_watch.
  destruct (set_states l d) as [[w seq] sk so ct ac
                                 [st ss av cr dr c1 c2 c3 dc di]].
  cbn in *. destruct H as [Hseq H].
  destruct st; destruct H as [-> Hdc].
  - rewrite Hdc. reflexivity.
  - apply Z.eqb_neq in Hdc. rewrite Hdc. cbn.
    destruct (Z.eq_dec dc dc); [reflexivity | contradiction].
  - apply Z.eqb_neq in Hdc. rewrite Hdc. cbn.
    destruct (Z.eq_dec dc dc); [reflexivity | contradiction].
Qed.

Lemma device_free_leaves_no_watch_witness :
  watches (fst (device_free
                  (set_states [AUDIO_STATE_CONNECTING; AUDIO_STATE_CONNECTED]
                              AudioSample.device0))) = [].
Proof.
  apply (device_free_leaves_no_watch
           [AUDIO_STATE_CONNECTING; AUDIO_STATE_CONNECTED]
           AudioSample.device0).
  - vm_compute. repeat split; discriminate.
  - reflexivity.
Defined.
